(** * Risk analysis and scoring: the EPSS projection and the analysis pipeline

    A shallow embedding of the four Python services of the repository
    ([finallayer3.py], [fastapi(1).py], [fastapi(2).py], [api.py]) and the
    properties their specification states about them.

    Numbers are IEEE 754 binary64 values (Rocq's primitive [float], whose
    operations are specified by [SpecFloat]); Python's [round(x, n)] is the
    correctly rounded decimal rounding CPython implements.  Text is modelled
    on its ASCII range.  The two HTTP collaborators and the process
    environment are inputs of the model ([world]); the two text parsers the
    code calls ([json.loads] on a completion, [float] on a string), the
    regular expression engine and the plotting library are parameters
    ([builtins]). *)

From Stdlib Require Import ZArith List String Ascii Bool Floats Lia.
Import ListNotations.
Set Warnings "-inexact-float,-register-all".

(** ** Python runtime *)

Module Py.

(** *** Exceptions and results *)

Inductive exn : Type :=
| ConnectionError            (* requests: the call itself failed or timed out *)
| HTTPError                  (* requests: raise_for_status on a 4xx/5xx reply *)
| JSONDecodeError            (* body or text that is not JSON *)
| KeyError
| IndexError
| TypeError
| ValueError
| AttributeError
| OverflowError
| RuntimeError
| ValidationError            (* pydantic *)
| HTTPException (status : Z) (* fastapi *).

Inductive result (A : Type) : Type :=
| Return (a : A)
| Raise (e : exn).
Arguments Return {A} a.
Arguments Raise {A} e.

Definition bind {A B : Type} (m : result A) (k : A -> result B) : result B :=
  match m with
  | Return a => k a
  | Raise e => Raise e
  end.

Definition returns {A : Type} (m : result A) : bool :=
  match m with Return _ => true | Raise _ => false end.

(** *** Floats *)

(** [min(a, b)]: the first argument unless the second is strictly smaller. *)
Definition py_min (a b : float) : float := if (b <? a)%float then b else a.

(** Nearest integer to [a / b], ties to even ([0 <= a], [0 < b]). *)
Definition rne_div (a b : Z) : Z :=
  let q := (a / b)%Z in
  match (2 * (a mod b) ?= b)%Z with
  | Lt => q
  | Eq => if Z.even q then q else (q + 1)%Z
  | Gt => (q + 1)%Z
  end.

(** The binary64 value nearest to the ratio [n / d] (ties to even), with
    sign [s]: what reading a decimal numeral back gives. *)
Definition nearest_ratio (s : bool) (n d : positive) : float :=
  SF2Prim (SF64div (S754_finite s n 0) (S754_finite false d 0)).

(** [round(x, ndigits)] for [ndigits >= 0]: the value is rounded to the
    nearest multiple of [10^-ndigits] on its exact binary expansion, ties to
    even, and the resulting decimal is read back as a float.  NaN, the
    infinities and the zeros round to themselves; so does everything past
    323 digits. *)
Definition py_round (x : float) (ndigits : N) : float :=
  if (323 <? ndigits)%N then x else
  match Prim2SF x with
  | S754_finite s m e =>
      let p := (10 ^ Z.of_N ndigits)%Z in
      let n := if (0 <=? e)%Z then (Zpos m * 2 ^ e * p)%Z
               else rne_div (Zpos m * p) (2 ^ (- e)) in
      match n with
      | Zpos n' => nearest_ratio s n' (Z.to_pos p)
      | _ => if s then (-0)%float else 0%float
      end
  | _ => x
  end.

(** [float(n)] for an [int]: correctly rounded, [OverflowError] past the range. *)
Definition float_of_int (z : Z) : result float :=
  match binary_normalize prec emax z 0 false with
  | S754_infinity _ => Raise OverflowError
  | r => Return (SF2Prim r)
  end.

(** Unit interval on binary64 values, read on the mantissa and exponent. *)
Definition one_sf : spec_float := S754_finite false 4503599627370496 (-52).

Definition sf_unit (r : spec_float) : Prop :=
  match r with
  | S754_zero _ => True
  | S754_finite false m e => (e < 0 /\ Zpos m <= 2 ^ (- e))%Z
  | _ => False
  end.

Definition sf_nonneg (r : spec_float) : Prop :=
  match r with
  | S754_zero _ | S754_finite false _ _ | S754_infinity false => True
  | _ => False
  end.

(** A zero, or a positive finite value whose exponent is at most [k]. *)
Definition sf_small (k : Z) (r : spec_float) : Prop :=
  match r with
  | S754_zero _ => True
  | S754_finite false _ e => (e <= k)%Z
  | _ => False
  end.

(** *** Strings (ASCII) *)

Definition lower_ascii (c : ascii) : ascii :=
  let n := N_of_ascii c in
  if ((65 <=? n) && (n <=? 90))%N then ascii_of_N (n + 32) else c.

Definition upper_ascii (c : ascii) : ascii :=
  let n := N_of_ascii c in
  if ((97 <=? n) && (n <=? 122))%N then ascii_of_N (n - 32) else c.

Fixpoint str_map (f : ascii -> ascii) (s : string) : string :=
  match s with
  | EmptyString => EmptyString
  | String c t => String (f c) (str_map f t)
  end.

Definition lower : string -> string := str_map lower_ascii.
Definition upper : string -> string := str_map upper_ascii.

(** [needle in hay] *)
Fixpoint contains (needle hay : string) : bool :=
  String.prefix needle hay ||
  match hay with
  | EmptyString => false
  | String _ t => contains needle t
  end.

Fixpoint has_char (c : ascii) (s : string) : bool :=
  match s with
  | EmptyString => false
  | String c' t => Ascii.eqb c c' || has_char c t
  end.

(** [re.search(r"\{.*\}", s, re.DOTALL)]: from the first opening brace to
    the last closing brace after it. *)
Fixpoint upto_last_brace (s : string) : option string :=
  match s with
  | EmptyString => None
  | String c t =>
      match upto_last_brace t with
      | Some r => Some (String c r)
      | None => if Ascii.eqb c "}" then Some (String c EmptyString) else None
      end
  end.

Fixpoint search_braces (s : string) : option string :=
  match s with
  | EmptyString => None
  | String c t =>
      if Ascii.eqb c "{" then
        match upto_last_brace t with
        | Some r => Some (String c r)
        | None => search_braces t
        end
      else search_braces t
  end.

(** *** Objects: what [json] produces *)

Inductive value : Type :=
| VNone
| VBool (b : bool)
| VInt (z : Z)
| VFloat (f : float)
| VStr (s : string)
| VList (l : list value)
| VDict (d : list (string * value)).

Fixpoint assoc (k : string) (d : list (string * value)) : option value :=
  match d with
  | [] => None
  | (k', v) :: t => if String.eqb k k' then Some v else assoc k t
  end.

(** [bool(v)] *)
Definition truthy (v : value) : bool :=
  match v with
  | VNone => false
  | VBool b => b
  | VInt z => negb (z =? 0)%Z
  | VFloat f => negb (f =? 0)%float
  | VStr s => negb (String.eqb s "")
  | VList l => match l with [] => false | _ => true end
  | VDict d => match d with [] => false | _ => true end
  end.

(** [v.get(k, default)]: only a dict has [get]. *)
Definition dict_get (v : value) (k : string) (default : value) : result value :=
  match v with
  | VDict d => Return (match assoc k d with Some x => x | None => default end)
  | _ => Raise AttributeError
  end.

(** [v[k]] with a string key. *)
Definition getitem (v : value) (k : string) : result value :=
  match v with
  | VDict d => match assoc k d with Some x => Return x | None => Raise KeyError end
  | _ => Raise TypeError
  end.

(** [v[0]] *)
Definition getitem0 (v : value) : result value :=
  match v with
  | VList l => match l with x :: _ => Return x | [] => Raise IndexError end
  | VStr s => match s with String c _ => Return (VStr (String c EmptyString))
                         | EmptyString => Raise IndexError end
  | VDict _ => Raise KeyError
  | _ => Raise TypeError
  end.

(** The libraries the services call: the two parsers of text, the regular
    expression engine behind a [pattern] constraint, and the plotting
    library. *)
Record builtins : Type := {
  json_loads : string -> option value;      (* None: JSONDecodeError *)
  float_of_str : string -> option float;    (* None: ValueError *)
  pattern_search : string -> string -> bool;
                                             (* the pattern, the text *)
  renders : string -> list float -> option exn
                                             (* the label put in the title, the
                                                values plotted; None: drawn *)
}.

(** Drawing a figure with a title and saving it, as [cvss_image] and
    [epss_image] of [fastapi(2).py] do through matplotlib.  What is assumed
    of the library is written here and nowhere else: a title without a
    dollar sign is plain text, values within [0, 10] can be placed on an
    axis, and the image directory, created when the module loads, can be
    written; such a figure is drawn.  For any other figure (a title that is
    read as a formula, a value that is huge or not a number) the library
    decides through [renders], and what it raises escapes to the caller:
    neither function catches anything. *)
Definition moderate (x : float) : bool := ((0 <=? x) && (x <=? 10))%float.

Definition draw (bi : builtins) (label : string) (values : list float) : result unit :=
  if negb (has_char "$" label) && forallb moderate values then Return tt
  else match renders bi label values with
       | None => Return tt
       | Some e => Raise e
       end.

(** [float(v)] *)
Definition py_float (bi : builtins) (v : value) : result float :=
  match v with
  | VFloat f => Return f
  | VInt z => float_of_int z
  | VBool b => Return (if b then 1 else 0)%float
  | VStr s => match float_of_str bi s with Some f => Return f | None => Raise ValueError end
  | _ => Raise TypeError
  end.

(** [json.loads(v)]: text only. *)
Definition py_json_loads (bi : builtins) (v : value) : result value :=
  match v with
  | VStr s => match json_loads bi s with Some x => Return x | None => Raise JSONDecodeError end
  | _ => Raise TypeError
  end.

(** *** HTTP replies and the outside world *)

Record response : Type := {
  status_code : Z;
  body : option value   (* the decoded JSON body; None when it is not JSON *)
}.

Definition raise_for_status (r : response) : result unit :=
  if ((400 <=? status_code r) && (status_code r <? 600))%Z then Raise HTTPError
  else Return tt.

Definition response_json (r : response) : result value :=
  match body r with
  | Some v => Return v
  | None => Raise JSONDecodeError
  end.

(** The collaborators: the process environment, the score service (asked
    about an identifier) and the completion service (asked with a bearer
    key about the data the prompt is built from).  A call that fails
    before a reply arrives raises. *)
Record world : Type := {
  getenv : string -> option string;
  epss_get : string -> result response;
  chat_post : string -> value -> result response;
  uuid4_hex : nat -> string
}.

End Py.

Import Py.

Declare Scope py_scope.
Delimit Scope py_scope with py.
Notation "x <- m ;; k" := (Py.bind m (fun x => k))
  (at level 61, m at next level, right associativity) : py_scope.
Notation "m ;;; k" := (Py.bind m (fun _ => k))
  (at level 61, right associativity) : py_scope.
Local Open Scope string_scope.
Local Open Scope py_scope.

(** ** [finallayer3.py]: the command-line analyzer *)

Module finallayer3.

(** [predict_epss_30d], lines 16-25: the four-band growth table. *)
Definition predict_epss_30d (current : float) : float :=
  let growth :=
    if (current <? 0.005)%float then 1.30%float
    else if (current <? 0.02)%float then 1.15%float
    else if (current <? 0.10)%float then 1.05%float
    else 0.97%float in
  py_round (py_min 1.0 (current * growth)%float) 5.

(** [fetch_epss], lines 28-40: nothing is caught. *)
Definition fetch_epss (bi : builtins) (w : world) (cve_id : string) : result float :=
  response <- epss_get w cve_id ;;
  raise_for_status response ;;;
  data <- response_json response ;;
  d <- dict_get data "data" VNone ;;
  if negb (truthy d) then Raise RuntimeError
  else
    l <- getitem data "data" ;;
    x <- getitem0 l ;;
    e <- getitem x "epss" ;;
    py_float bi e.

(** [CVESummarizer], lines 43-102. *)
Record CVESummarizer : Type := {
  api_key : string;
  model : string
}.

Definition _call_api (w : world) (self : CVESummarizer) (cve : value) : result value :=
  response <- chat_post w (api_key self) cve ;;
  raise_for_status response ;;;
  response_json response.

Definition _parse_response (bi : builtins) (response : value) : result value :=
  choices <- getitem response "choices" ;;
  c0 <- getitem0 choices ;;
  message <- getitem c0 "message" ;;
  content <- getitem message "content" ;;
  match content with
  | VStr text =>
      match search_braces text with
      | None => Raise RuntimeError
      | Some found => py_json_loads bi (VStr found)
      end
  | _ => Raise TypeError
  end.

Definition summarize (bi : builtins) (w : world) (self : CVESummarizer) (cve : value)
  : result value :=
  response <- _call_api w self cve ;;
  _parse_response bi response.

(** The input of the script, lines 135-146. *)
Record SampleInput : Type := {
  cve_id : string;
  cvss_score : float;
  severity : string;
  summary : string;
  description : string;
  affected_assets : list string
}.

Definition to_dict (c : SampleInput) : value :=
  VDict [("cve_id", VStr (cve_id c)); ("cvss_score", VFloat (cvss_score c));
         ("severity", VStr (severity c)); ("summary", VStr (summary c));
         ("description", VStr (description c));
         ("affected_assets", VList (map VStr (affected_assets c)))].

(** The script body, lines 132-177: the record that is printed. *)
Definition main (bi : builtins) (w : world) (self : CVESummarizer) (sample_input : SampleInput)
  : result value :=
  ai_result <- summarize bi w self (to_dict sample_input) ;;
  epss_current <- fetch_epss bi w (cve_id sample_input) ;;
  let epss_30d := predict_epss_30d epss_current in
  simple_summary <- getitem ai_result "simple_summary" ;;
  simple_description <- getitem ai_result "simple_description" ;;
  affected_products <- getitem ai_result "affected_products" ;;
  fixes <- getitem ai_result "fixes" ;;
  Return (VDict [("cve_id", VStr (cve_id sample_input));
                 ("severity", VStr (severity sample_input));
                 ("cvss_score", VFloat (cvss_score sample_input));
                 ("simple_summary", simple_summary);
                 ("simple_description", simple_description);
                 ("affected_products", affected_products); ("fixes", fixes);
                 ("affected_assets", VList (map VStr (affected_assets sample_input)));
                 ("epss_score", VFloat epss_current);
                 ("epss_30d_prediction", VFloat epss_30d)]).

End finallayer3.

(** ** [fastapi(1).py]: the form-based analyzer with a result store *)

Module fastapi_1.

(** [CVEInput], lines 28-33. *)
Record CVEInput : Type := {
  cve_id : string;
  cvss_vector : string;
  severity : string;
  cvss_score : float;
  affected_assets : list string
}.

(** The constraint [pattern=r"^CVE-\d{4}-\d{4,10}$"] of line 29. *)
Definition cve_id_pattern (bi : builtins) (s : string) : bool :=
  pattern_search bi "^CVE-\d{4}-\d{4,10}$" s.

(** Construction of a [CVEInput] from fields of the declared types. *)
Definition CVEInput_validate (bi : builtins) (raw : CVEInput) : result CVEInput :=
  if cve_id_pattern bi (cve_id raw)
     && (0 <=? cvss_score raw)%float && (cvss_score raw <=? 10)%float
  then Return raw else Raise ValidationError.

Definition model_dump (c : CVEInput) : list (string * value) :=
  [("cve_id", VStr (cve_id c)); ("cvss_vector", VStr (cvss_vector c));
   ("severity", VStr (severity c)); ("cvss_score", VFloat (cvss_score c));
   ("affected_assets", VList (map VStr (affected_assets c)))].

(** [DATA_STORE], line 35. *)
Record entry : Type := {
  entry_cvss_score : float;
  entry_epss_now : float;
  entry_epss_30 : float
}.

Definition store : Type := list (string * entry).

Fixpoint store_set (k : string) (v : entry) (st : store) : store :=
  match st with
  | [] => [(k, v)]
  | (k', v') :: t => if String.eqb k k' then (k, v) :: t else (k', v') :: store_set k v t
  end.

Fixpoint store_get (k : string) (st : store) : option entry :=
  match st with
  | [] => None
  | (k', v) :: t => if String.eqb k k' then Some v else store_get k t
  end.

(** [fetch_epss], lines 45-54. *)
Definition fetch_epss (bi : builtins) (w : world) (cve_id : string) : float :=
  let attempt : result float :=
    r <- epss_get w cve_id ;;
    raise_for_status r ;;;
    data <- response_json r ;;
    d <- dict_get data "data" VNone ;;
    if negb (truthy d) then Return 0.0%float
    else
      l <- getitem data "data" ;;
      x <- getitem0 l ;;
      e <- getitem x "epss" ;;
      py_float bi e in
  match attempt with
  | Return v => v
  | Raise _ => 0.0%float
  end.

(** [predict_epss_30d], lines 56-72: the five-band table. *)
Definition predict_epss_30d (cur : float) : float :=
  let growth :=
    if (cur <? 0.01)%float then 1.50%float
    else if (cur <? 0.05)%float then 1.30%float
    else if (cur <? 0.20)%float then 1.15%float
    else if (cur <? 0.50)%float then 1.08%float
    else 1.03%float in
  py_round (py_min 1.0 (cur * growth)%float) 5.

Definition unavailable : value :=
  VDict [("simple_summary", VStr "AI analysis unavailable");
         ("simple_description", VStr "Failed to generate AI analysis");
         ("affected_products", VList []);
         ("fixes", VList [])].

(** [ai_generate_analysis], lines 76-113. *)
Definition ai_generate_analysis (bi : builtins) (w : world) (api_key : string) (cve : CVEInput)
  : value :=
  let attempt : result value :=
    r <- chat_post w api_key (VDict (model_dump cve)) ;;
    raise_for_status r ;;;
    reply <- response_json r ;;
    choices <- getitem reply "choices" ;;
    c0 <- getitem0 choices ;;
    message <- getitem c0 "message" ;;
    content <- getitem message "content" ;;
    match content with
    | VStr text =>
        match search_braces text with
        | Some found => py_json_loads bi (VStr found)
        | None => Return (VDict [])
        end
    | _ => Raise TypeError
    end in
  match attempt with
  | Return v => v
  | Raise _ => unavailable
  end.

(** [{**a, **b}] and [d[k] = v] on a dict kept in insertion order. *)
Fixpoint dict_set (k : string) (v : value) (d : list (string * value)) : list (string * value) :=
  match d with
  | [] => [(k, v)]
  | (k', v') :: t => if String.eqb k k' then (k, v) :: t else (k', v') :: dict_set k v t
  end.

Definition dict_update (d extra : list (string * value)) : list (string * value) :=
  fold_left (fun acc kv => dict_set (fst kv) (snd kv) acc) extra d.

Inductive page : Type :=
| InvalidPage
| ResultPage (final : list (string * value)) (visuals_link : string).

(** [analyze], lines 173-200.  [parsed] is the outcome of decoding the form
    text into fields of the declared types ([None]: it cannot be decoded).
    The store is threaded through. *)
Definition analyze (bi : builtins) (w : world) (api_key : string)
  (parsed : option CVEInput) (st : store) : result page * store :=
  match (match parsed with
         | Some raw => CVEInput_validate bi raw
         | None => Raise ValueError
         end) with
  | Raise _ => (Return InvalidPage, st)
  | Return data =>
      let ai_result := ai_generate_analysis bi w api_key data in
      let epss_now := fetch_epss bi w (cve_id data) in
      let epss_30 := predict_epss_30d epss_now in
      let st' := store_set (cve_id data)
                   {| entry_cvss_score := cvss_score data;
                      entry_epss_now := epss_now;
                      entry_epss_30 := epss_30 |} st in
      match ai_result with
      | VDict extra =>
          let final :=
            dict_update (dict_update (model_dump data) extra)
              [("epss_score", VFloat epss_now); ("epss_30d_prediction", VFloat epss_30)] in
          (Return (ResultPage final ("/visuals/" ++ cve_id data)), st')
      | _ => (Raise TypeError, st')
      end
  end.

(** [visuals], lines 202-213: the numbers handed to the two plots. *)
Definition visuals (st : store) (cve_id : string) : result entry :=
  match store_get cve_id st with
  | Some data => Return data
  | None => Raise (HTTPException 404)
  end.

End fastapi_1.

(** ** [fastapi(2).py]: the JSON API with the deterministic fallback *)

Module fastapi_2.

(** [CVEInput], lines 45-59. *)
Record CVEInput : Type := {
  cve_id : string;
  cvss_vector : option string;
  severity : string;
  cvss_score : float;
  summary : string;
  description : string
}.

Definition severities : list string := ["CRITICAL"; "HIGH"; "MEDIUM"; "LOW"; "NONE"].

Definition validate_severity (v : string) : result string :=
  let v := upper v in
  if existsb (String.eqb v) severities then Return v else Raise ValueError.

(** Construction of a [CVEInput] from fields of the declared types; the
    stored severity is the upper-cased one. *)
Definition CVEInput_validate (raw : CVEInput) : result CVEInput :=
  match validate_severity (severity raw) with
  | Raise _ => Raise ValidationError
  | Return sev =>
      if (0 <=? cvss_score raw)%float && (cvss_score raw <=? 10)%float
      then Return {| cve_id := cve_id raw; cvss_vector := cvss_vector raw;
                     severity := sev; cvss_score := cvss_score raw;
                     summary := summary raw; description := description raw |}
      else Raise ValidationError
  end.

Definition model_dump (c : CVEInput) : list (string * value) :=
  [("cve_id", VStr (cve_id c));
   ("cvss_vector", match cvss_vector c with Some v => VStr v | None => VNone end);
   ("severity", VStr (severity c)); ("cvss_score", VFloat (cvss_score c));
   ("summary", VStr (summary c)); ("description", VStr (description c))].

(** [CVEAnalysisResponse], lines 62-75. *)
Record CVEAnalysisResponse : Type := {
  r_cve_id : string;
  r_cvss_vector : option string;
  r_severity : string;
  r_cvss_score : float;
  simple_summary : string;
  simple_description : string;
  affected_products : list string;
  affected_assets : list string;
  fixes : list string;
  epss_score : float;
  epss_30d_prediction : float;
  cvss_heatmap_url : string;
  epss_plot_url : string
}.

(** [OPENROUTER_API_KEY], line 36: [os.getenv(name, "")].  [name] is the
    literal the source passes, a token-shaped string that is not repeated
    here. *)
Definition OPENROUTER_API_KEY (name : string) (w : world) : string :=
  match getenv w name with
  | Some v => v
  | None => ""
  end.

(** Loading the module, as far as the key goes: the lookup has a default
    and cannot fail. *)
Definition startup (name : string) (w : world) : result string :=
  Return (OPENROUTER_API_KEY name w).

Definition fallback_products (cve : CVEInput) : list string :=
  let l1 := if contains "ssh" (lower (summary cve)) then ["OpenSSH"] else [] in
  let l2 := if contains "linux" (lower (description cve))
            then (l1 ++ ["Linux systems"])%list else l1 in
  match l2 with
  | [] => ["Affected software components"]
  | _ => l2
  end.

Definition fallback_assets : list string :=
  ["Servers"; "Production systems"; "Internet-facing hosts"].

Definition fallback_fixes : list string :=
  ["Apply vendor security patches";
   "Upgrade to the latest stable version";
   "Restrict network access";
   "Monitor logs for exploitation attempts"].

Definition fallback (cve : CVEInput) : value :=
  VDict [("simple_summary", VStr (summary cve));
         ("simple_description", VStr (description cve));
         ("affected_products", VList (map VStr (fallback_products cve)));
         ("affected_assets", VList (map VStr fallback_assets));
         ("fixes", VList (map VStr fallback_fixes))].

(** The body of the [try] of [ai_analyze], lines 151-155. *)
Definition completion (bi : builtins) (w : world) (api_key : string) (cve : CVEInput)
  : result value :=
  r <- chat_post w api_key (VDict (model_dump cve)) ;;
  raise_for_status r ;;;
  reply <- response_json r ;;
  choices <- getitem reply "choices" ;;
  c0 <- getitem0 choices ;;
  message <- getitem c0 "message" ;;
  content <- getitem message "content" ;;
  py_json_loads bi content.

(** [ai_analyze], lines 78-164; [api_key] is the module-level key. *)
Definition ai_analyze (bi : builtins) (w : world) (api_key : string) (cve : CVEInput) : value :=
  if String.eqb api_key "" then fallback cve
  else
    match completion bi w api_key cve with
    | Return v => v
    | Raise _ => fallback cve
    end.

(** [epss_live], lines 167-174. *)
Definition epss_live (bi : builtins) (w : world) (cve_id : string) : float :=
  let attempt : result float :=
    r <- epss_get w cve_id ;;
    raise_for_status r ;;;
    reply <- response_json r ;;
    data <- dict_get reply "data" (VList []) ;;
    if truthy data then
      x <- getitem0 data ;;
      e <- getitem x "epss" ;;
      py_float bi e
    else Return 0.0%float in
  match attempt with
  | Return v => v
  | Raise _ => 0.0%float
  end.

(** [epss_predict], lines 177-178. *)
Definition epss_predict (current : float) : float :=
  py_round (current * 1.15)%float 5.

(** [cvss_image] and [epss_image], lines 181-215: the picture is drawn and
    saved under a fresh name, and its address returned. *)
Definition cvss_image (bi : builtins) (w : world) (k : nat) (score : float) (cve_id : string)
  : result string :=
  draw bi cve_id [score] ;;;
  Return ("/static/images/" ++ ("cvss_" ++ uuid4_hex w k ++ ".png")).

Definition epss_image (bi : builtins) (w : world) (k : nat) (current predicted : float)
  (cve_id : string) : result string :=
  draw bi cve_id [current; predicted] ;;;
  Return ("/static/images/" ++ ("epss_" ++ uuid4_hex w k ++ ".png")).

(** What a [str] field and a [List[str]] field of the response accept. *)
Definition as_str (v : value) : result string :=
  match v with
  | VStr s => Return s
  | _ => Raise ValidationError
  end.

Fixpoint as_str_list_aux (l : list value) : result (list string) :=
  match l with
  | [] => Return []
  | v :: t => s <- as_str v ;; r <- as_str_list_aux t ;; Return (s :: r)
  end.

Definition as_str_list (v : value) : result (list string) :=
  match v with
  | VList l => as_str_list_aux l
  | _ => Raise ValidationError
  end.

(** [analyze], lines 236-257, on a validated record. *)
Definition analyze (bi : builtins) (w : world) (api_key : string) (cve : CVEInput)
  : result CVEAnalysisResponse :=
  let ai := ai_analyze bi w api_key cve in
  let epss_now := epss_live bi w (cve_id cve) in
  let epss_30 := epss_predict epss_now in
  v_summary <- getitem ai "simple_summary" ;;
  v_description <- getitem ai "simple_description" ;;
  v_products <- getitem ai "affected_products" ;;
  v_assets <- getitem ai "affected_assets" ;;
  v_fixes <- getitem ai "fixes" ;;
  heatmap <- cvss_image bi w 0 (cvss_score cve) (cve_id cve) ;;
  plot <- epss_image bi w 1 epss_now epss_30 (cve_id cve) ;;
  s_summary <- as_str v_summary ;;
  s_description <- as_str v_description ;;
  l_products <- as_str_list v_products ;;
  l_assets <- as_str_list v_assets ;;
  l_fixes <- as_str_list v_fixes ;;
  Return {| r_cve_id := cve_id cve; r_cvss_vector := cvss_vector cve;
            r_severity := severity cve; r_cvss_score := cvss_score cve;
            simple_summary := s_summary; simple_description := s_description;
            affected_products := l_products; affected_assets := l_assets;
            fixes := l_fixes; epss_score := epss_now; epss_30d_prediction := epss_30;
            cvss_heatmap_url := heatmap; epss_plot_url := plot |}.

(** The [POST /analyze] route: the body is validated, then analysed. *)
Definition post_analyze (bi : builtins) (w : world) (api_key : string) (raw : CVEInput)
  : result CVEAnalysisResponse :=
  cve <- CVEInput_validate raw ;;
  analyze bi w api_key cve.

End fastapi_2.

(** ** [api.py]: the simplification service *)

Module api.

(** Lines 9-13: the key is read when the module is loaded. *)
Definition API_KEY (w : world) : result string :=
  match getenv w "OPENROUTER_API_KEY" with
  | Some k => if String.eqb k "" then Raise ValueError else Return k
  | None => Raise ValueError
  end.

(** The exceptions of [requests.exceptions.RequestException]. *)
Definition is_request_exception (e : exn) : bool :=
  match e with
  | ConnectionError | HTTPError | JSONDecodeError => true
  | _ => false
  end.

Definition is_space (c : ascii) : bool :=
  let n := N_of_ascii c in
  (((9 <=? n) && (n <=? 13)) || ((28 <=? n) && (n <=? 32)))%N.

Fixpoint lstrip (s : string) : string :=
  match s with
  | EmptyString => EmptyString
  | String c t => if is_space c then lstrip t else s
  end.

Fixpoint rstrip (s : string) : string :=
  match s with
  | EmptyString => EmptyString
  | String c t =>
      match rstrip t with
      | EmptyString => if is_space c then EmptyString else String c EmptyString
      | r => String c r
      end
  end.

Definition strip (s : string) : string := rstrip (lstrip s).

Definition reply_content (r : response) : result value :=
  reply <- response_json r ;;
  choices <- getitem reply "choices" ;;
  c0 <- getitem0 choices ;;
  message <- getitem c0 "message" ;;
  getitem message "content".

(** [simplify_vulnerability], lines 36-64. *)
Definition simplify_vulnerability (w : world) (key : string) (text : string) : result string :=
  let attempt : result string :=
    r <- chat_post w key (VStr text) ;;
    if (status_code r =? 200)%Z then
      content <- reply_content r ;;
      match content with
      | VStr s => Return (strip s)
      | _ => Raise AttributeError
      end
    else Raise (HTTPException (status_code r)) in
  match attempt with
  | Raise e => if is_request_exception e then Raise (HTTPException 500) else Raise e
  | Return v => Return v
  end.

(** [answer_query], lines 66-95; [data] is the loaded vulnerability data. *)
Definition answer_query (w : world) (key : string) (data : value) (user_input : string)
  : result value :=
  let attempt : result value :=
    r <- chat_post w key (VList [data; VStr user_input]) ;;
    if (status_code r =? 200)%Z then reply_content r
    else Raise (HTTPException (status_code r)) in
  match attempt with
  | Raise e => if is_request_exception e then Raise (HTTPException 500) else Raise e
  | Return v => Return v
  end.

End api.

(** ** Sample collaborators *)

Module Samples.

Definition is_digit (c : ascii) : bool :=
  let n := N_of_ascii c in ((48 <=? n) && (n <=? 57))%N.

Fixpoint all_digits (s : string) : bool :=
  match s with
  | EmptyString => true
  | String c t => is_digit c && all_digits t
  end.

(** A matcher for the identifier pattern, on ASCII text: [CVE-], four
    digits, a dash, four to ten digits. *)
Definition ascii_cve_id (s : string) : bool :=
  String.prefix "CVE-" s &&
  (let year := substring 4 4 s in
   let tail := substring 9 (String.length s - 9) s in
   (String.length year =? 4)%nat && all_digits year &&
   String.eqb (substring 8 1 s) "-" &&
   (4 <=? String.length tail)%nat && (String.length tail <=? 10)%nat && all_digits tail).

(** A plotting library that refuses the empty formula and huge values. *)
Definition toy_renders (label : string) (values : list float) : option exn :=
  if String.eqb label "$$" || existsb (fun x => (1e300 <? x)%float) values
  then Some ValueError else None.

(** Parsers that know one completion text and one score text. *)
Definition toy_builtins : builtins := {|
  json_loads := fun s => if String.eqb s "{}" then Some (VDict []) else None;
  float_of_str := fun s => if String.eqb s "0.02" then Some 0.02%float else None;
  pattern_search := fun _ s => ascii_cve_id s;
  renders := toy_renders
|}.

Definition reply_with (content : value) : response := {|
  status_code := 200;
  body := Some (VDict [("choices",
            VList [VDict [("message", VDict [("content", content)])]])])
|}.

Definition score_reply (data : value) : response := {|
  status_code := 200;
  body := Some (VDict [("status", VStr "OK"); ("data", data)])
|}.

(** Nothing configured, both services unreachable. *)
Definition offline : world := {|
  getenv := fun _ => None;
  epss_get := fun _ => Raise ConnectionError;
  chat_post := fun _ _ => Raise ConnectionError;
  uuid4_hex := fun _ => "0"
|}.

(** The score service knows no such identifier. *)
Definition no_data : world := {|
  getenv := fun _ => None;
  epss_get := fun _ => Return (score_reply (VList []));
  chat_post := fun _ _ => Raise ConnectionError;
  uuid4_hex := fun _ => "0"
|}.

(** The score service answers 0.02; the completion service is down. *)
Definition scored : world := {|
  getenv := fun _ => None;
  epss_get := fun _ => Return (score_reply (VList [VDict [("cve", VStr "CVE-2023-4863");
                                                           ("epss", VStr "0.02")]]));
  chat_post := fun _ _ => Raise ConnectionError;
  uuid4_hex := fun _ => "0"
|}.

(** The completion service answers with an empty JSON object. *)
Definition empty_completion : world := {|
  getenv := fun _ => Some "key";
  epss_get := fun _ => Return (score_reply (VList []));
  chat_post := fun _ _ => Return (reply_with (VStr "{}"));
  uuid4_hex := fun _ => "0"
|}.

(** A parser that knows one completion, and a world whose completion
    service wraps that completion in prose. *)
Definition canned_completion : value :=
  VDict [("simple_summary", VStr "A header can be forged.");
         ("simple_description", VStr "Line breaks in headers are not checked.");
         ("affected_products", VList [VStr "cpp-httplib < 0.30.0"]);
         ("fixes", VList [VStr "Upgrade to 0.30.0"])].

Definition canned_builtins : builtins := {|
  json_loads := fun s => if String.eqb s "{canned}" then Some canned_completion else None;
  float_of_str := fun s => if String.eqb s "0.00043" then Some 0.00043%float else None;
  pattern_search := fun _ s => ascii_cve_id s;
  renders := toy_renders
|}.

Definition answering : world := {|
  getenv := fun _ => None;
  epss_get := fun _ => Return (score_reply (VList [VDict [("cve", VStr "CVE-2026-21428");
                                                           ("epss", VStr "0.00043")]]));
  chat_post := fun _ _ => Return (reply_with (VStr "Here it is: {canned} Done."));
  uuid4_hex := fun _ => "0"
|}.

Definition summarizer : finallayer3.CVESummarizer := {|
  finallayer3.api_key := "key";
  finallayer3.model := "openai/gpt-4o-mini"
|}.

Definition sample_input : finallayer3.SampleInput := {|
  finallayer3.cve_id := "CVE-2026-21428";
  finallayer3.cvss_score := 7.7;
  finallayer3.severity := "HIGH";
  finallayer3.summary :=
    "Improper header handling allows header injection and SSRF in cpp-httplib.";
  finallayer3.description :=
    "CRLF characters are not validated correctly in versions prior to 0.30.0.";
  finallayer3.affected_assets :=
    ["web-api-server-01"; "payment-service-container"; "internal-gateway"]
|}.

(** A completion with the five fields of [fastapi(2).py], its fixes empty. *)
Definition full_completion : value :=
  VDict [("simple_summary", VStr "An image can crash the program.");
         ("simple_description", VStr "A crafted picture overflows a buffer.");
         ("affected_products", VList [VStr "libwebp"]);
         ("affected_assets", VList [VStr "Browsers"]);
         ("fixes", VList [])].

Definition full_builtins : builtins := {|
  json_loads := fun s => if String.eqb s "{full}" then Some full_completion else None;
  float_of_str := fun _ => None;
  pattern_search := fun _ s => ascii_cve_id s;
  renders := toy_renders
|}.

Definition completing : world := {|
  getenv := fun _ => Some "key";
  epss_get := fun _ => Raise ConnectionError;
  chat_post := fun _ _ => Return (reply_with (VStr "{full}"));
  uuid4_hex := fun _ => "0"
|}.

Definition printed : value :=
  VDict [("cve_id", VStr "CVE-2026-21428"); ("severity", VStr "HIGH");
         ("cvss_score", VFloat 7.7);
         ("simple_summary", VStr "A header can be forged.");
         ("simple_description", VStr "Line breaks in headers are not checked.");
         ("affected_products", VList [VStr "cpp-httplib < 0.30.0"]);
         ("fixes", VList [VStr "Upgrade to 0.30.0"]);
         ("affected_assets", VList [VStr "web-api-server-01"; VStr "payment-service-container";
                                    VStr "internal-gateway"]);
         ("epss_score", VFloat 0.00043);
         ("epss_30d_prediction", VFloat 0.00056)].

Definition libwebp : fastapi_2.CVEInput := {|
  fastapi_2.cve_id := "CVE-2023-4863";
  fastapi_2.cvss_vector := None;
  fastapi_2.severity := "CRITICAL";
  fastapi_2.cvss_score := 9.8;
  fastapi_2.summary := "libwebp heap overflow";
  fastapi_2.description := "..."
|}.

(** A record whose identifier is the empty formula. *)
Definition dollars : fastapi_2.CVEInput := {|
  fastapi_2.cve_id := "$$";
  fastapi_2.cvss_vector := None;
  fastapi_2.severity := "CRITICAL";
  fastapi_2.cvss_score := 9.8;
  fastapi_2.summary := "libwebp heap overflow";
  fastapi_2.description := "..."
|}.

Definition libwebp_v1 : fastapi_1.CVEInput := {|
  fastapi_1.cve_id := "CVE-2023-4863";
  fastapi_1.cvss_vector := "AV:N/AC:L/PR:N/UI:N/S:U/C:H/I:H/A:H";
  fastapi_1.severity := "CRITICAL";
  fastapi_1.cvss_score := 9.8;
  fastapi_1.affected_assets := ["libwebp < 1.3.2"]
|}.

End Samples.

(** ** Expected results *)

(** The record [analyze] assembles from the fallback bundle, given the
    addresses of the two pictures. *)
Definition fallback_response (bi : builtins) (w : world) (cve : fastapi_2.CVEInput)
  (heatmap plot : string) : fastapi_2.CVEAnalysisResponse :=
  let epss_now := fastapi_2.epss_live bi w (fastapi_2.cve_id cve) in
  {| fastapi_2.r_cve_id := fastapi_2.cve_id cve;
     fastapi_2.r_cvss_vector := fastapi_2.cvss_vector cve;
     fastapi_2.r_severity := fastapi_2.severity cve;
     fastapi_2.r_cvss_score := fastapi_2.cvss_score cve;
     fastapi_2.simple_summary := fastapi_2.summary cve;
     fastapi_2.simple_description := fastapi_2.description cve;
     fastapi_2.affected_products := fastapi_2.fallback_products cve;
     fastapi_2.affected_assets := fastapi_2.fallback_assets;
     fastapi_2.fixes := fastapi_2.fallback_fixes;
     fastapi_2.epss_score := epss_now;
     fastapi_2.epss_30d_prediction := fastapi_2.epss_predict epss_now;
     fastapi_2.cvss_heatmap_url := heatmap;
     fastapi_2.epss_plot_url := plot |}.

(** The two pictures of [analyze], in the order they are drawn. *)
Definition pictures (bi : builtins) (w : world) (cve : fastapi_2.CVEInput)
  : result (string * string) :=
  let epss_now := fastapi_2.epss_live bi w (fastapi_2.cve_id cve) in
  heatmap <- fastapi_2.cvss_image bi w 0 (fastapi_2.cvss_score cve) (fastapi_2.cve_id cve) ;;
  plot <- fastapi_2.epss_image bi w 1 epss_now (fastapi_2.epss_predict epss_now)
            (fastapi_2.cve_id cve) ;;
  Return (heatmap, plot).

(** What every entry of the result store of [fastapi(1).py] satisfies. *)
Definition entry_ok (bi : builtins) (k : string) (v : fastapi_1.entry) : Prop :=
  fastapi_1.cve_id_pattern bi k = true /\
  (0 <=? fastapi_1.entry_cvss_score v)%float = true /\
  (fastapi_1.entry_cvss_score v <=? 10)%float = true /\
  fastapi_1.entry_epss_30 v = fastapi_1.predict_epss_30d (fastapi_1.entry_epss_now v).

Definition store_ok (bi : builtins) (st : fastapi_1.store) : Prop :=
  forall k v, fastapi_1.store_get k st = Some v -> entry_ok bi k v.

(** The entry [analyze] of [fastapi(1).py] writes for a record. *)
Definition entry_of (bi : builtins) (w : world) (data : fastapi_1.CVEInput) : fastapi_1.entry :=
  let epss_now := fastapi_1.fetch_epss bi w (fastapi_1.cve_id data) in
  {| fastapi_1.entry_cvss_score := fastapi_1.cvss_score data;
     fastapi_1.entry_epss_now := epss_now;
     fastapi_1.entry_epss_30 := fastapi_1.predict_epss_30d epss_now |}.

Definition first_char (s : string) : option ascii :=
  match s with
  | EmptyString => None
  | String c _ => Some c
  end.

Fixpoint last_char (s : string) : option ascii :=
  match s with
  | EmptyString => None
  | String c EmptyString => Some c
  | String _ t => last_char t
  end.

(** * Properties *)

Local Open Scope Z_scope.

(** ** Binary64 rounding: digits, shifts and the unit interval *)

Lemma digits2_pos_lt p : Zpos p < 2 ^ Zpos (digits2_pos p).
Proof.
  induction p as [p IH | p IH |]; cbn [digits2_pos];
    rewrite ?Pos2Z.inj_succ, ?Z.pow_succ_r by lia; lia.
Qed.

Lemma digits2_pos_ge p : 2 ^ (Zpos (digits2_pos p) - 1) <= Zpos p.
Proof.
  induction p as [p IH | p IH |]; cbn [digits2_pos].
  - rewrite Pos2Z.inj_succ. replace (Z.succ (Zpos (digits2_pos p)) - 1) with (Z.succ (Zpos (digits2_pos p) - 1)) by lia.
    rewrite Z.pow_succ_r by lia. lia.
  - rewrite Pos2Z.inj_succ. replace (Z.succ (Zpos (digits2_pos p)) - 1) with (Z.succ (Zpos (digits2_pos p) - 1)) by lia.
    rewrite Z.pow_succ_r by lia. lia.
  - cbn. lia.
Qed.

Lemma Zdigits2_nonneg m : 0 <= Zdigits2 m.
Proof. destruct m; cbn; lia. Qed.

Lemma Zdigits2_unique m j : 0 < j -> 2 ^ (j - 1) <= m < 2 ^ j -> Zdigits2 m = j.
Proof.
  intros Hj [Hlo Hhi].
  assert (0 < m) by (pose proof (Z.pow_pos_nonneg 2 (j - 1)); lia).
  destruct m as [|p|p]; try lia. cbn [Zdigits2].
  pose proof (digits2_pos_lt p) as H1. pose proof (digits2_pos_ge p) as H2.
  assert (j - 1 < Zpos (digits2_pos p)).
  { apply (Z.pow_lt_mono_r_iff 2); lia. }
  assert (Zpos (digits2_pos p) - 1 < j).
  { apply (Z.pow_lt_mono_r_iff 2); lia. }
  lia.
Qed.

Lemma Zdigits2_bounds m : 0 < m -> 2 ^ (Zdigits2 m - 1) <= m < 2 ^ Zdigits2 m.
Proof.
  destruct m as [|p|p]; try lia. intros _. cbn [Zdigits2].
  split; [apply digits2_pos_ge | apply digits2_pos_lt].
Qed.

Lemma Zdigits2_le_of_lt m k : 0 <= k -> 0 <= m < 2 ^ k -> Zdigits2 m <= k.
Proof.
  intros Hk [H0 Hlt]. destruct (Z.eq_dec m 0) as [->|Hne]; [cbn; lia|].
  pose proof (Zdigits2_bounds m ltac:(lia)) as [Hlo _].
  pose proof (Zdigits2_nonneg m).
  assert (Zdigits2 m - 1 < k); [|lia].
  destruct (Z.le_gt_cases 0 (Zdigits2 m - 1)); [|lia].
  apply (Z.pow_lt_mono_r_iff 2); lia.
Qed.

Lemma Zdigits2_shift m k : 0 < m -> 0 <= k < Zdigits2 m -> Zdigits2 (m / 2 ^ k) = Zdigits2 m - k.
Proof.
  intros Hm Hk. pose proof (Zdigits2_bounds m Hm) as [Hlo Hhi].
  assert (Hp : 0 < 2 ^ k) by (apply Z.pow_pos_nonneg; lia).
  apply Zdigits2_unique; [lia|]. split.
  - apply Z.div_le_lower_bound; [lia|].
    rewrite <- Z.pow_add_r by lia. replace (k + (Zdigits2 m - k - 1)) with (Zdigits2 m - 1) by lia. exact Hlo.
  - apply Z.div_lt_upper_bound; [lia|].
    rewrite <- Z.pow_add_r by lia. replace (k + (Zdigits2 m - k)) with (Zdigits2 m) by lia. exact Hhi.
Qed.

Lemma div_pow2_small m k : 0 <= m -> Zdigits2 m <= k -> m / 2 ^ k = 0.
Proof.
  intros Hm Hk. destruct (Z.eq_dec m 0) as [->|Hne]; [apply Z.div_0_l; pose proof (Z.pow_pos_nonneg 2 k); pose proof (Zdigits2_nonneg 0); lia|].
  pose proof (Zdigits2_bounds m ltac:(lia)) as [_ Hhi].
  pose proof (Zdigits2_nonneg m).
  apply Z.div_small. split; [lia|].
  apply Z.lt_le_trans with (1 := Hhi). apply Z.pow_le_mono_r; lia.
Qed.

Lemma Zdigits2_succ m : 0 < m ->
  Zdigits2 (m + 1) = Zdigits2 m \/ (m + 1 = 2 ^ Zdigits2 m /\ Zdigits2 (m + 1) = Zdigits2 m + 1).
Proof.
  intros Hm. pose proof (Zdigits2_bounds m Hm) as [Hlo Hhi].
  assert (0 < Zdigits2 m) by (destruct m; cbn; lia).
  destruct (Z.eq_dec (m + 1) (2 ^ Zdigits2 m)) as [E|NE].
  - right. split; [exact E|]. apply Zdigits2_unique; [lia|].
    replace (Zdigits2 m + 1 - 1) with (Zdigits2 m) by lia.
    rewrite Z.pow_add_r by lia. change (2 ^ 1) with 2. lia.
  - left. apply Zdigits2_unique; lia.
Qed.

Lemma shr_1_m mrs : 0 <= shr_m mrs -> shr_m (shr_1 mrs) = shr_m mrs / 2.
Proof.
  destruct mrs as [m r s]. cbn [shr_m]. intros Hm. unfold shr_1.
  destruct m as [|[p|p|]|p]; cbn [shr_m]; try lia;
    try (apply Z.div_unique with (r := 1); lia);
    try (apply Z.div_unique with (r := 0); lia); try reflexivity.
Qed.

Lemma iter_shr_1_m p : forall mrs, 0 <= shr_m mrs ->
  shr_m (iter_pos shr_1 p mrs) = shr_m mrs / 2 ^ Zpos p.
Proof.
  induction p as [p IH | p IH |]; intros mrs Hm; cbn [iter_pos].
  - assert (H1 : 0 <= shr_m (shr_1 mrs)) by (rewrite shr_1_m by lia; apply Z.div_pos; lia).
    assert (Hp : 0 < 2 ^ Zpos p) by (apply Z.pow_pos_nonneg; lia).
    assert (H2 : 0 <= shr_m (iter_pos shr_1 p (shr_1 mrs))) by (rewrite IH by lia; apply Z.div_pos; lia).
    rewrite IH, IH, shr_1_m by lia.
    rewrite !Z.div_div by lia. f_equal.
    change 2 with (2 ^ 1) at 1. rewrite <- !Z.pow_add_r by lia. f_equal. lia.
  - assert (Hp : 0 < 2 ^ Zpos p) by (apply Z.pow_pos_nonneg; lia).
    assert (H2 : 0 <= shr_m (iter_pos shr_1 p mrs)) by (rewrite IH by lia; apply Z.div_pos; lia).
    rewrite IH, IH by lia.
    rewrite !Z.div_div by lia. f_equal.
    rewrite <- Z.pow_add_r by lia. f_equal. lia.
  - rewrite shr_1_m by lia. reflexivity.
Qed.

Lemma shr_spec mrs e n : 0 <= shr_m mrs ->
  shr_m (fst (shr mrs e n)) = shr_m mrs / 2 ^ Z.max 0 n /\ snd (shr mrs e n) = e + Z.max 0 n.
Proof.
  intros Hm. unfold shr. destruct n as [|p|p]; cbn [fst snd].
  - change (Z.max 0 0) with 0. rewrite Z.div_1_r. lia.
  - rewrite iter_shr_1_m by lia. replace (Z.max 0 (Zpos p)) with (Zpos p) by lia. lia.
  - replace (Z.max 0 (Zneg p)) with 0 by lia. rewrite Z.div_1_r. lia.
Qed.

Lemma shr_record_of_loc_m m l : shr_m (shr_record_of_loc m l) = m.
Proof. destruct l as [|[]]; reflexivity. Qed.

Lemma shr_fexp_spec m e l : 0 <= m ->
  shr_m (fst (shr_fexp prec emax m e l)) = m / 2 ^ (snd (shr_fexp prec emax m e l) - e) /\
  snd (shr_fexp prec emax m e l) = Z.max e (fexp prec emax (Zdigits2 m + e)).
Proof.
  intros Hm. unfold shr_fexp.
  pose proof (shr_spec (shr_record_of_loc m l) e (fexp prec emax (Zdigits2 m + e) - e)) as H.
  rewrite shr_record_of_loc_m in H. destruct (H Hm) as [H1 H2]. rewrite H1, H2.
  split; [f_equal; f_equal; lia | lia].
Qed.

Lemma round_nearest_even_cases m l : round_nearest_even m l = m \/ round_nearest_even m l = m + 1.
Proof. destruct l as [|[]]; cbn; auto. destruct (Z.even m); auto. Qed.

Lemma fexp64 x : fexp prec emax x = Z.max (x - 53) (-1074).
Proof. reflexivity. Qed.

Lemma round_nearest_even_range m l : 0 <= m -> m <= round_nearest_even m l <= m + 1.
Proof. intros. destruct (round_nearest_even_cases m l) as [-> | ->]; lia. Qed.

Lemma binary_round_aux_unfold s M e l :
  binary_round_aux prec emax s M e l =
  let r1 := shr_fexp prec emax M e l in
  let m1 := round_nearest_even (shr_m (fst r1)) (loc_of_shr_record (fst r1)) in
  let r2 := shr_fexp prec emax m1 (snd r1) loc_Exact in
  match shr_m (fst r2) with
  | Z0 => S754_zero s
  | Zpos m => if snd r2 <=? emax - prec then S754_finite s m (snd r2) else S754_infinity s
  | Zneg _ => S754_nan
  end.
Proof.
  unfold binary_round_aux.
  destruct (shr_fexp prec emax M e l) as [mrs' e'] eqn:E1. cbn [fst snd].
  destruct (shr_fexp prec emax _ e' loc_Exact) as [mrs'' e''] eqn:E2. cbn [fst snd].
  reflexivity.
Qed.

Lemma binary_round_aux_below s M e l :
  0 <= M -> e < 0 -> M < 2 ^ (- e) ->
  match binary_round_aux prec emax s M e l with
  | S754_zero s' => s' = s
  | S754_finite s' m e'' => s' = s /\ e'' < 0 /\ Zpos m <= 2 ^ (- e'')
  | _ => False
  end.
Proof.
  intros HM He Hlt. rewrite binary_round_aux_unfold. cbv zeta.
  set (r1 := shr_fexp prec emax M e l).
  destruct (shr_fexp_spec M e l HM) as [Hm1 He1]. fold r1 in Hm1, He1.
  set (e1 := snd r1) in *. set (m' := shr_m (fst r1)) in *.
  set (m1 := round_nearest_even m' (loc_of_shr_record (fst r1))).
  assert (HdM : Zdigits2 M <= - e) by (apply Zdigits2_le_of_lt; lia).
  rewrite fexp64 in He1.
  assert (He1neg : e1 < 0) by lia.
  assert (He1ge : e <= e1) by lia.
  assert (Hp1 : 0 < 2 ^ (e1 - e)) by (apply Z.pow_pos_nonneg; lia).
  assert (Hm'0 : 0 <= m') by (rewrite Hm1; apply Z.div_pos; lia).
  assert (Hm'lt : m' < 2 ^ (- e1)).
  { rewrite Hm1. apply Z.div_lt_upper_bound; [lia|].
    rewrite <- Z.pow_add_r by lia. replace (e1 - e + - e1) with (- e) by lia. exact Hlt. }
  pose proof (round_nearest_even_range m' (loc_of_shr_record (fst r1)) Hm'0) as Hr. fold m1 in Hr.
  set (r2 := shr_fexp prec emax m1 e1 loc_Exact).
  destruct (shr_fexp_spec m1 e1 loc_Exact ltac:(lia)) as [Hm2 He2]. fold r2 in Hm2, He2.
  set (e2 := snd r2) in *. set (m2 := shr_m (fst r2)) in *.
  assert (Hd1 : Zdigits2 m1 <= - e1 + 1).
  { apply Zdigits2_le_of_lt; [lia|]. split; [lia|].
    rewrite Z.pow_add_r by lia. change (2 ^ 1) with 2. lia. }
  rewrite fexp64 in He2.
  assert (He2neg : e2 < 0) by lia.
  assert (He2ge : e1 <= e2) by lia.
  assert (Hp2 : 0 < 2 ^ (e2 - e1)) by (apply Z.pow_pos_nonneg; lia).
  assert (Hm2le : 0 <= m2 <= 2 ^ (- e2)).
  { rewrite Hm2. split; [apply Z.div_pos; lia|].
    apply Z.div_le_upper_bound; [lia|].
    rewrite <- Z.pow_add_r by lia. replace (e2 - e1 + - e2) with (- e1) by lia. lia. }
  assert (Hov : (e2 <=? emax - prec) = true) by (apply Z.leb_le; unfold emax, prec; lia).
  rewrite Hov. clearbody m2 e2.
  destruct m2 as [|p|p]; [reflexivity | | lia].
  split; [reflexivity | split; lia].
Qed.

Lemma binary_round_aux_valid s M e l :
  0 <= M -> e <= fexp prec emax (Zdigits2 M + e) ->
  valid_binary (binary_round_aux prec emax s M e l) = true.
Proof.
  intros HM Hpre. rewrite binary_round_aux_unfold. cbv zeta.
  set (r1 := shr_fexp prec emax M e l).
  destruct (shr_fexp_spec M e l HM) as [Hm1 He1]. fold r1 in Hm1, He1.
  set (e1 := snd r1) in *. set (m' := shr_m (fst r1)) in *.
  set (m1 := round_nearest_even m' (loc_of_shr_record (fst r1))).
  rewrite fexp64 in Hpre, He1.
  assert (He1eq : e1 = Z.max (Zdigits2 M + e - 53) (-1074)) by lia.
  assert (Hp1 : 0 < 2 ^ (e1 - e)) by (apply Z.pow_pos_nonneg; lia).
  assert (Hm'0 : 0 <= m') by (rewrite Hm1; apply Z.div_pos; lia).
  pose proof (round_nearest_even_range m' (loc_of_shr_record (fst r1)) Hm'0) as Hr. fold m1 in Hr.
  set (r2 := shr_fexp prec emax m1 e1 loc_Exact).
  destruct (shr_fexp_spec m1 e1 loc_Exact ltac:(lia)) as [Hm2 He2]. fold r2 in Hm2, He2.
  set (e2 := snd r2) in *. set (m2 := shr_m (fst r2)) in *.
  rewrite fexp64 in He2.
  assert (Hcan1 : m1 = 0 \/ (0 < m1 /\ (Z.max (Zdigits2 m1 + e1 - 53) (-1074) = e1
                  \/ (m1 = 2 ^ 53 /\ -1074 <= e1)))).
  { destruct (Z.eq_dec m1 0) as [Hz|Hnz]; [left; exact Hz|right]. split; [lia|].
    destruct (Z.lt_ge_cases (e1 - e) (Zdigits2 M)) as [Hk|Hk].
    - assert (HMpos : 0 < M).
      { destruct M; cbn in Hk; lia. }
      assert (Hdm' : Zdigits2 m' = Zdigits2 M - (e1 - e)).
      { rewrite Hm1. apply Zdigits2_shift; lia. }
      assert (Hm'pos : 0 < m').
      { destruct m'; cbn in Hdm'; lia. }
      destruct (Z.eq_dec m1 m') as [E|NE].
      + left. rewrite E. lia.
      + assert (Em1 : m1 = m' + 1) by lia.
        destruct (Zdigits2_succ m' Hm'pos) as [Hs | [Hpow Hs]]; rewrite <- Em1 in *.
        * left. lia.
        * destruct (Z.eq_dec (Zdigits2 m') 53) as [E53|N53].
          -- right. rewrite E53 in Hpow. lia.
          -- left. lia.
    - assert (Hm'z : m' = 0) by (rewrite Hm1; apply div_pow2_small; lia).
      assert (Em1 : m1 = 1) by lia.
      pose proof (Zdigits2_nonneg M).
      left. rewrite Em1. cbn [Zdigits2 digits2_pos]. lia. }
  destruct Hcan1 as [Hz | [Hpos [Hc | [Hpow He1lo]]]].
  - assert (E : m2 = 0) by (rewrite Hm2, Hz; apply Z.div_0_l; pose proof (Z.pow_pos_nonneg 2 (e2 - e1)); lia).
    rewrite E. reflexivity.
  - assert (E2 : e2 = e1) by lia.
    assert (Em2 : m2 = m1) by (rewrite Hm2, E2, Z.sub_diag; apply Z.div_1_r).
    rewrite Em2. destruct m1 as [|p|p]; try lia.
    destruct (e2 <=? emax - prec) eqn:Hov; [|reflexivity].
    cbn [valid_binary]. unfold bounded, canonical_mantissa. rewrite Hov, andb_true_r.
    apply Z.eqb_eq. rewrite fexp64, E2. exact Hc.
  - assert (Hd : Zdigits2 m1 = 54) by (rewrite Hpow; reflexivity).
    assert (E2 : e2 = e1 + 1) by lia.
    assert (Em2 : m2 = 2 ^ 52).
    { rewrite Hm2, E2, Hpow. replace (e1 + 1 - e1) with 1 by lia. reflexivity. }
    rewrite Em2. change (2 ^ 52) with (Zpos 4503599627370496).
    cbv iota beta.
    destruct (e2 <=? emax - prec) eqn:Hov; [|reflexivity].
    cbn [valid_binary]. unfold bounded, canonical_mantissa. rewrite Hov, andb_true_r.
    apply Z.eqb_eq. rewrite fexp64. change (Zpos (digits2_pos 4503599627370496)) with 53. lia.
Qed.

Lemma valid_canonical s m e :
  valid_binary (S754_finite s m e) = true ->
  Z.max (Zpos (digits2_pos m) + e - 53) (-1074) = e /\ e <= 971.
Proof.
  cbn [SpecFloat.valid_binary]. unfold bounded, canonical_mantissa.
  rewrite andb_true_iff, Z.eqb_eq, Z.leb_le, fexp64. unfold emax, prec. lia.
Qed.

Lemma valid_mantissa_lt s m e : valid_binary (S754_finite s m e) = true -> Zpos m < 2 ^ 53.
Proof.
  intros Hv. apply valid_canonical in Hv. destruct Hv as [Hc _].
  pose proof (digits2_pos_lt m) as Hlt.
  apply Z.lt_le_trans with (1 := Hlt). apply Z.pow_le_mono_r; lia.
Qed.

Lemma SFltb_fin ma ea mb eb :
  SFltb (S754_finite false ma ea) (S754_finite false mb eb) = true <-> ea < eb \/ (ea = eb /\ Zpos ma < Zpos mb).
Proof.
  unfold SFltb, SFcompare. fold (Pos.compare ma mb).
  destruct (Z.compare_spec ea eb); [destruct (Pos.compare_spec ma mb)|..];
    split; intros; try discriminate; try reflexivity; lia.
Qed.

Lemma SFleb_fin ma ea mb eb :
  SFleb (S754_finite false ma ea) (S754_finite false mb eb) = true <-> ea < eb \/ (ea = eb /\ Zpos ma <= Zpos mb).
Proof.
  unfold SFleb, SFcompare. fold (Pos.compare ma mb).
  destruct (Z.compare_spec ea eb); [destruct (Pos.compare_spec ma mb)|..];
    split; intros; try discriminate; try reflexivity; lia.
Qed.

Lemma sf_unit_below_one r :
  valid_binary r = true -> sf_unit r -> SFltb r one_sf = true \/ r = one_sf.
Proof.
  destruct r as [s | s | | [|] m e]; cbn [sf_unit]; intros Hv Hu; try contradiction.
  - left. reflexivity.
  - destruct Hu as [He Hm]. pose proof (valid_canonical _ _ _ Hv) as [Hc _].
    pose proof (digits2_pos_ge m) as Hge. pose proof (digits2_pos_lt m) as Hlt.
    destruct (Z.lt_trichotomy e (-52)) as [H | [H | H]].
    + left. apply SFltb_fin. lia.
    + right. unfold one_sf. subst e.
      assert (Hd : Zpos (digits2_pos m) = 53) by lia.
      rewrite Hd in Hge. change (2 ^ (53 - 1)) with 4503599627370496 in Hge.
      change (2 ^ (- -52)) with 4503599627370496 in Hm.
      f_equal. lia.
    + exfalso. assert (Hd : Zpos (digits2_pos m) = 53) by lia.
      rewrite Hd in Hge.
      assert (2 ^ (- e) < 2 ^ (53 - 1)) by (apply Z.pow_lt_mono_r; lia). lia.
Qed.

Lemma sf_unit_of_range r :
  valid_binary r = true ->
  SFleb (S754_zero false) r = true -> SFleb r one_sf = true -> sf_unit r.
Proof.
  destruct r as [s | [|] | | [|] m e]; intros Hv H0 H1; cbn [sf_unit];
    try exact I;
    try (cbv [SFleb SFcompare one_sf] in H0, H1; discriminate).
  apply SFleb_fin in H1. pose proof (valid_mantissa_lt _ _ _ Hv) as Hlt.
  destruct H1 as [H1 | [-> H1]].
  - split; [lia|]. apply Z.lt_le_incl, Z.lt_le_trans with (1 := Hlt).
    apply Z.pow_le_mono_r; lia.
  - split; [lia|]. change (2 ^ (- -52)) with 4503599627370496. lia.
Qed.

Lemma sf_unit_range r :
  sf_unit r -> valid_binary r = true ->
  SFleb (S754_zero false) r = true /\ SFleb r one_sf = true.
Proof.
  intros Hu Hv. destruct (sf_unit_below_one r Hv Hu) as [Hlt | ->]; [|split; [reflexivity|reflexivity]].
  destruct r as [s | s | | [|] m e]; cbn [sf_unit] in Hu; try contradiction.
  - split; reflexivity.
  - split; [reflexivity|]. unfold SFleb. unfold SFltb in Hlt.
    destruct (SFcompare (S754_finite false m e) one_sf) as [[| |]|]; try discriminate; reflexivity.
Qed.

Lemma SFmul_unit mx ex my ey :
  ex + ey < 0 -> Zpos mx * Zpos my < 2 ^ (- (ex + ey)) ->
  sf_unit (SF64mul (S754_finite false mx ex) (S754_finite false my ey)).
Proof.
  intros He Hm. unfold SF64mul, SFmul. cbn [xorb].
  pose proof (binary_round_aux_below false (Zpos (mx * my)) (ex + ey) loc_Exact) as H.
  rewrite Pos2Z.inj_mul in H. specialize (H ltac:(lia) He Hm).
  rewrite Pos2Z.inj_mul.
  destruct (binary_round_aux prec emax false (Zpos mx * Zpos my) (ex + ey) loc_Exact) as [s|s| |s m e];
    cbn [sf_unit]; try contradiction; auto.
  destruct H as [-> [H1 H2]]. split; lia.
Qed.

Lemma SFmul_nonneg x my ey :
  valid_binary x = true -> sf_nonneg x -> sf_nonneg (SF64mul x (S754_finite false my ey)).
Proof.
  intros Hv Hx. destruct x as [s | [|] | | [|] mx ex]; cbn [sf_nonneg] in Hx; try contradiction; try exact I.
  unfold SF64mul, SFmul. cbn [xorb]. rewrite binary_round_aux_unfold. cbv zeta.
  set (r1 := shr_fexp prec emax (Zpos (mx * my)) (ex + ey) loc_Exact).
  destruct (shr_fexp_spec (Zpos (mx * my)) (ex + ey) loc_Exact ltac:(lia)) as [Hm1 He1]. fold r1 in Hm1, He1.
  set (m1 := round_nearest_even (shr_m (fst r1)) (loc_of_shr_record (fst r1))).
  assert (H0 : 0 <= shr_m (fst r1)).
  { rewrite Hm1. apply Z.div_pos; [lia|]. apply Z.pow_pos_nonneg; [lia|]. rewrite He1. lia. }
  pose proof (round_nearest_even_range _ (loc_of_shr_record (fst r1)) H0) as Hr. fold m1 in Hr.
  destruct (shr_fexp_spec m1 (snd r1) loc_Exact ltac:(lia)) as [Hm2 He2].
  set (r2 := shr_fexp prec emax m1 (snd r1) loc_Exact) in *.
  assert (H2 : 0 <= shr_m (fst r2)).
  { rewrite Hm2. apply Z.div_pos; [lia|]. apply Z.pow_pos_nonneg; [lia|]. rewrite He2. lia. }
  destruct (shr_m (fst r2)); [exact I | | lia].
  destruct (snd r2 <=? emax - prec); exact I.
Qed.

Lemma SFdiv_core_int n d :
  exists l,
    SFdiv_core_binary prec emax (Zpos n) 0 (Zpos d) 0 =
    (Zpos n * 2 ^ (- Z.min (fexp prec emax (Zdigits2 (Zpos n) - Zdigits2 (Zpos d))) 0) / Zpos d,
     Z.min (fexp prec emax (Zdigits2 (Zpos n) - Zdigits2 (Zpos d))) 0, l).
Proof.
  unfold SFdiv_core_binary. rewrite !Z.add_0_r. change (0 - 0) with 0.
  set (e' := Z.min (fexp prec emax (Zdigits2 (Zpos n) - Zdigits2 (Zpos d))) 0).
  assert (He' : e' <= 0) by (subst e'; lia).
  set (m' := match 0 - e' with Zpos _ => Z.shiftl (Zpos n) (0 - e') | Z0 => Zpos n | Zneg _ => 0 end).
  assert (Hm' : m' = Zpos n * 2 ^ (- e')).
  { subst m'. replace (0 - e') with (- e') by lia.
    destruct (- e') as [|p|p] eqn:E; [rewrite Z.mul_1_r; reflexivity | | lia].
    rewrite Z.shiftl_mul_pow2 by lia. reflexivity. }
  rewrite <- Hm'. unfold Z.div.
  destruct (Z.div_eucl m' (Zpos d)) as [q r]. cbn [fst]. eexists. reflexivity.
Qed.

Lemma Zdigits2_ge_of_le m k : 0 <= k -> 2 ^ k <= m -> k + 1 <= Zdigits2 m.
Proof.
  intros Hk Hle. assert (0 < m) by (pose proof (Z.pow_pos_nonneg 2 k); lia).
  pose proof (Zdigits2_bounds m ltac:(lia)) as [_ Hhi]. pose proof (Zdigits2_nonneg m).
  assert (k < Zdigits2 m); [|lia]. apply (Z.pow_lt_mono_r_iff 2); lia.
Qed.

Lemma SFdiv_int_valid s n d :
  valid_binary (SF64div (S754_finite s n 0) (S754_finite false d 0)) = true.
Proof.
  unfold SF64div, SFdiv. destruct (SFdiv_core_int n d) as [l ->].
  set (d1 := Zdigits2 (Zpos n)). set (d2 := Zdigits2 (Zpos d)).
  set (e' := Z.min (fexp prec emax (d1 - d2)) 0).
  assert (Hq0 : 0 <= Zpos n * 2 ^ (- e') / Zpos d).
  { apply Z.div_pos; [|lia]. apply Z.mul_nonneg_nonneg; [lia|]. apply Z.pow_nonneg; lia. }
  apply binary_round_aux_valid; [exact Hq0|].
  rewrite fexp64. destruct (Z.le_gt_cases e' (-1074)) as [Hlo|Hhi]; [lia|].
  assert (He' : e' <= 0) by (subst e'; lia).
  assert (Hs : d2 + 52 <= d1 - 1 + - e').
  { subst e'. rewrite fexp64 in *. lia. }
  pose proof (Zdigits2_bounds (Zpos n) ltac:(lia)) as [Hn _]. fold d1 in Hn.
  pose proof (Zdigits2_bounds (Zpos d) ltac:(lia)) as [_ Hd]. fold d2 in Hd.
  assert (Hd1 : 0 < d1) by (subst d1; cbn; lia).
  assert (Hd2 : 0 < d2) by (subst d2; cbn; lia).
  assert (Hq : 2 ^ 52 <= Zpos n * 2 ^ (- e') / Zpos d).
  { apply Z.div_le_lower_bound; [lia|].
    assert (A : 2 ^ (d2 + 52) = 2 ^ d2 * 2 ^ 52) by (apply Z.pow_add_r; lia).
    assert (B : 2 ^ (d2 + 52) <= 2 ^ (d1 - 1 + - e')) by (apply Z.pow_le_mono_r; lia).
    assert (C : 2 ^ (d1 - 1 + - e') = 2 ^ (d1 - 1) * 2 ^ (- e')) by (apply Z.pow_add_r; lia).
    assert (P : 0 < 2 ^ (- e')) by (apply Z.pow_pos_nonneg; lia).
    assert (Q : 0 < 2 ^ 52) by reflexivity.
    nia. }
  pose proof (Zdigits2_ge_of_le _ 52 ltac:(lia) Hq). lia.
Qed.

Lemma SFdiv_int_unit n d :
  Zpos n < Zpos d -> sf_unit (SF64div (S754_finite false n 0) (S754_finite false d 0)).
Proof.
  intros Hlt. unfold SF64div, SFdiv. destruct (SFdiv_core_int n d) as [l ->]. cbn [xorb].
  set (d1 := Zdigits2 (Zpos n)). set (d2 := Zdigits2 (Zpos d)).
  set (e' := Z.min (fexp prec emax (d1 - d2)) 0).
  pose proof (Zdigits2_bounds (Zpos d) ltac:(lia)) as [_ Hd]. fold d2 in Hd.
  assert (Hd2 : 0 < d2) by (subst d2; cbn; lia).
  assert (H12 : d1 <= d2) by (apply Zdigits2_le_of_lt; lia).
  assert (He' : e' < 0) by (subst e'; rewrite fexp64; lia).
  assert (Hp : 0 < 2 ^ (- e')) by (apply Z.pow_pos_nonneg; lia).
  pose proof (binary_round_aux_below false (Zpos n * 2 ^ (- e') / Zpos d) e' l) as H.
  assert (Hq0 : 0 <= Zpos n * 2 ^ (- e') / Zpos d) by (apply Z.div_pos; nia).
  assert (Hq1 : Zpos n * 2 ^ (- e') / Zpos d < 2 ^ (- e')) by (apply Z.div_lt_upper_bound; nia).
  specialize (H Hq0 He' Hq1).
  destruct (binary_round_aux prec emax false (Zpos n * 2 ^ (- e') / Zpos d) e' l) as [s|s| |s m e];
    cbn [sf_unit]; try contradiction; auto.
  destruct H as [-> [H1 H2]]. split; lia.
Qed.

(** ** From the specification to the primitive operations *)

Lemma Prim2SF_one : Prim2SF 1 = one_sf.
Proof. reflexivity. Qed.

Lemma unit_range (x : float) :
  sf_unit (Prim2SF x) <-> (0 <=? x)%float = true /\ (x <=? 1)%float = true.
Proof.
  rewrite !leb_spec, Prim2SF_one. change (Prim2SF 0) with (S754_zero false).
  split.
  - intros Hu. apply sf_unit_range; [exact Hu | apply Prim2SF_valid].
  - intros [H0 H1]. apply sf_unit_of_range; [apply Prim2SF_valid | exact H0 | exact H1].
Qed.

Lemma unit_lt_or_one (x : float) :
  sf_unit (Prim2SF x) -> (x <? 1)%float = true \/ x = 1%float.
Proof.
  intros Hu. rewrite ltb_spec, Prim2SF_one.
  destruct (sf_unit_below_one _ (Prim2SF_valid x) Hu) as [H | H]; [left; exact H | right].
  apply Prim2SF_inj. rewrite H. reflexivity.
Qed.

Lemma py_min_unit_id (p : float) : sf_unit (Prim2SF p) -> py_min 1 p = p.
Proof.
  intros Hu. unfold py_min. destruct (unit_lt_or_one p Hu) as [H | ->].
  - rewrite H. reflexivity.
  - reflexivity.
Qed.

Lemma py_min_clamps (p : float) : sf_nonneg (Prim2SF p) -> sf_unit (Prim2SF (py_min 1 p)).
Proof.
  intros Hn. unfold py_min. destruct (p <? 1)%float eqn:Hlt.
  - rewrite ltb_spec, Prim2SF_one in Hlt. pose proof (Prim2SF_valid p) as Hv.
    destruct (Prim2SF p) as [s | [|] | | [|] m e]; cbn [sf_nonneg sf_unit] in *;
      try contradiction; try exact I; try (cbv [SFltb SFcompare one_sf] in Hlt; discriminate).
    apply SFltb_fin in Hlt. pose proof (valid_mantissa_lt _ _ _ Hv) as Hm.
    destruct Hlt as [He | [-> Hm52]].
    + split; [lia|]. apply Z.lt_le_incl, Z.lt_le_trans with (1 := Hm).
      apply Z.pow_le_mono_r; lia.
    + split; [lia|]. change (2 ^ (- -52)) with 4503599627370496. lia.
  - rewrite Prim2SF_one. cbv [sf_unit one_sf]. split; [lia|]. reflexivity.
Qed.

Lemma mul_nonneg (c g : float) mg eg :
  sf_nonneg (Prim2SF c) -> Prim2SF g = S754_finite false mg eg ->
  sf_nonneg (Prim2SF (c * g)).
Proof.
  intros Hc Hg. rewrite mul_spec, Hg. apply SFmul_nonneg; [apply Prim2SF_valid | exact Hc].
Qed.

Lemma rne_div_bound a b n :
  0 <= a -> 0 < b -> a <= n * b -> 0 <= rne_div a b <= n.
Proof.
  intros Ha Hb Hn. unfold rne_div.
  pose proof (Z.div_mod a b ltac:(lia)) as Hdm.
  pose proof (Z.mod_pos_bound a b Hb) as Hr.
  assert (Hq0 : 0 <= a / b) by (apply Z.div_pos; lia).
  assert (Hqn : a / b <= n) by (apply Z.div_le_upper_bound; lia).
  assert (Hstep : 0 < a mod b -> a / b + 1 <= n) by nia.
  destruct (Z.compare_spec (2 * (a mod b)) b); [destruct (Z.even (a / b))|..]; lia.
Qed.

Lemma nearest_ratio_unit5 n :
  (n <= 100000)%positive -> sf_unit (Prim2SF (nearest_ratio false n 100000)).
Proof.
  intros Hle. unfold nearest_ratio. rewrite Prim2SF_SF2Prim by apply SFdiv_int_valid.
  destruct (Pos.eq_dec n 100000) as [-> | Hne].
  - vm_compute. split; [reflexivity | discriminate].
  - apply SFdiv_int_unit. lia.
Qed.

Lemma py_round_unit (q : float) :
  sf_unit (Prim2SF q) -> sf_unit (Prim2SF (py_round q 5)).
Proof.
  intros Hu. unfold py_round. change (323 <? 5)%N with false. cbv iota.
  destruct (Prim2SF q) as [s | s | | [|] m e] eqn:E; cbn [sf_unit] in Hu; try contradiction.
  - rewrite E. exact I.
  - destruct Hu as [He Hm].
    assert (Hneg : (0 <=? e) = false) by (apply Z.leb_gt; exact He).
    rewrite Hneg. change (10 ^ Z.of_N 5) with 100000.
    change (Z.to_pos 100000) with 100000%positive.
    assert (Hp : 0 < 2 ^ (- e)) by (apply Z.pow_pos_nonneg; lia).
    pose proof (rne_div_bound (Zpos m * 100000) (2 ^ (- e)) 100000 ltac:(lia) Hp ltac:(nia)) as Hn.
    destruct (rne_div (Zpos m * 100000) (2 ^ (- e))) as [|n|n].
    + exact I.
    + apply nearest_ratio_unit5. lia.
    + exact I.
Qed.

Lemma nonneg_of_leb (c : float) : (0 <=? c)%float = true -> sf_nonneg (Prim2SF c).
Proof.
  rewrite leb_spec. change (Prim2SF 0) with (S754_zero false).
  destruct (Prim2SF c) as [s | [|] | | [|] m e]; cbn [sf_nonneg]; intros H;
    try exact I; cbv [SFleb SFcompare] in H; discriminate.
Qed.

Lemma small_of_ltb (c b : float) mb eb :
  (0 <=? c)%float = true -> (c <? b)%float = true ->
  Prim2SF b = S754_finite false mb eb -> sf_small eb (Prim2SF c).
Proof.
  intros H0 Hlt Hb. pose proof (nonneg_of_leb c H0) as Hn.
  rewrite ltb_spec, Hb in Hlt.
  destruct (Prim2SF c) as [s | [|] | | [|] m e]; cbn [sf_nonneg sf_small] in *;
    try contradiction; try exact I.
  - cbv [SFltb SFcompare] in Hlt. discriminate.
  - apply SFltb_fin in Hlt. lia.
Qed.

Lemma mul_small_unit (c g : float) mg eg k :
  sf_small k (Prim2SF c) ->
  Prim2SF g = S754_finite false mg eg -> Zpos mg < 2 ^ 53 ->
  k + eg <= -106 ->
  sf_unit (Prim2SF (c * g)).
Proof.
  intros Hs Hg Hmg Hsum. rewrite mul_spec, Hg.
  pose proof (Prim2SF_valid c) as Hv.
  destruct (Prim2SF c) as [s | s | | [|] m e]; cbn [sf_small] in Hs; try contradiction.
  - exact I.
  - pose proof (valid_mantissa_lt _ _ _ Hv) as Hm.
    apply SFmul_unit; [lia|].
    assert (Hp : 2 ^ 106 <= 2 ^ (- (e + eg))) by (apply Z.pow_le_mono_r; lia).
    change (2 ^ 106) with (2 ^ 53 * 2 ^ 53) in Hp.
    assert (Zpos m * Zpos mg < 2 ^ 53 * 2 ^ 53); [|lia].
    apply Z.mul_lt_mono_nonneg; lia.
Qed.

Lemma mul_unit_unit (c g : float) mg eg :
  sf_unit (Prim2SF c) ->
  Prim2SF g = S754_finite false mg eg -> eg < 0 -> Zpos mg < 2 ^ (- eg) ->
  sf_unit (Prim2SF (c * g)).
Proof.
  intros Hu Hg Heg Hmg. rewrite mul_spec, Hg.
  destruct (Prim2SF c) as [s | s | | [|] m e]; cbn [sf_unit] in Hu; try contradiction.
  - exact I.
  - destruct Hu as [He Hm]. apply SFmul_unit; [lia|].
    replace (- (e + eg)) with (- e + - eg) by lia. rewrite Z.pow_add_r by lia.
    assert (0 < 2 ^ (- e)) by (apply Z.pow_pos_nonneg; lia).
    apply Z.le_lt_trans with (2 ^ (- e) * Zpos mg).
    + apply Z.mul_le_mono_nonneg_r; lia.
    + apply Z.mul_lt_mono_pos_l; lia.
Qed.

Lemma ltb_false_above (a b c : float) ma ea mb eb :
  Prim2SF a = S754_finite false ma ea -> Prim2SF b = S754_finite false mb eb ->
  ea < eb \/ (ea = eb /\ Zpos ma <= Zpos mb) ->
  (b <=? c)%float = true -> (c <? a)%float = false.
Proof.
  intros Ha Hb Hab Hle. rewrite leb_spec, Hb in Hle. rewrite ltb_spec, Ha.
  destruct (Prim2SF c) as [s | [|] | | [|] m e];
    try (cbv [SFleb SFcompare] in Hle; discriminate); try reflexivity.
  apply SFleb_fin in Hle.
  destruct (SFltb (S754_finite false m e) (S754_finite false ma ea)) eqn:E; [|reflexivity].
  apply SFltb_fin in E. lia.
Qed.

(** ** The projection engines *)

(** Whatever the growth factor, clamping at 1.0 and rounding to five places
    keeps a non-negative product inside the unit interval. *)
Lemma clamp_round_unit (c g : float) mg eg :
  (0 <=? c)%float = true -> Prim2SF g = S754_finite false mg eg ->
  sf_unit (Prim2SF (py_round (py_min 1 (c * g)) 5)).
Proof.
  intros H0 Hg. apply py_round_unit, py_min_clamps.
  apply mul_nonneg with (1 := nonneg_of_leb c H0) (2 := Hg).
Qed.

(** C2: below 0.005 the canonical engine multiplies by 1.30; the clamp at
    1.0 and the rounding to five places commute there, so the result is
    exactly [min(1.0, round(current * 1.30, 5))]. *)
Theorem predict_epss_30d_lowest_band (current : float) :
  (0 <=? current)%float = true -> (current <? 0.005)%float = true ->
  finallayer3.predict_epss_30d current = py_min 1.0 (py_round (current * 1.30) 5).
Proof.
  intros H0 Hlt. unfold finallayer3.predict_epss_30d. rewrite Hlt.
  assert (Hu : sf_unit (Prim2SF (current * 1.30))).
  { apply mul_small_unit with (mg := 5854679515581645%positive) (eg := -52) (k := -60).
    - apply small_of_ltb with (b := 0.005%float) (mb := 5764607523034235%positive);
        [exact H0 | exact Hlt | reflexivity].
    - reflexivity.
    - reflexivity.
    - lia. }
  rewrite (py_min_unit_id _ Hu).
  symmetry. apply py_min_unit_id, py_round_unit, Hu.
Qed.

Lemma predict_epss_30d_lowest_band_witness :
  (0 <=? 0.004)%float = true /\ (0.004 <? 0.005)%float = true /\
  finallayer3.predict_epss_30d 0.004 = py_min 1.0 (py_round (0.004 * 1.30) 5).
Proof.
  split; [reflexivity | split; [reflexivity |]].
  apply (predict_epss_30d_lowest_band 0.004); reflexivity.
Defined.

(** C3: from 0.10 up to 1.0 the canonical engine returns exactly
    [round(current * 0.97, 5)]: the growth factor of the top band is below
    one and the clamp at 1.0 never bites. *)
Theorem predict_epss_30d_top_band (current : float) :
  (0.10 <=? current)%float = true -> (current <=? 1.0)%float = true ->
  finallayer3.predict_epss_30d current = py_round (current * 0.97) 5.
Proof.
  intros Hlo Hhi. unfold finallayer3.predict_epss_30d.
  rewrite (ltb_false_above 0.005 0.10 current 5764607523034235 (-60) 7205759403792794 (-56)
             eq_refl eq_refl ltac:(lia) Hlo).
  rewrite (ltb_false_above 0.02 0.10 current 5764607523034235 (-58) 7205759403792794 (-56)
             eq_refl eq_refl ltac:(lia) Hlo).
  rewrite (ltb_false_above 0.10 0.10 current 7205759403792794 (-56) 7205759403792794 (-56)
             eq_refl eq_refl ltac:(lia) Hlo).
  assert (H0 : (0 <=? current)%float = true).
  { rewrite leb_spec in *. change (Prim2SF 0) with (S754_zero false).
    change (Prim2SF 0.10) with (S754_finite false 7205759403792794 (-56)) in Hlo.
    destruct (Prim2SF current) as [s | [|] | | [|] m e];
      try reflexivity; cbv [SFleb SFcompare] in Hlo; discriminate. }
  assert (Hu : sf_unit (Prim2SF (current * 0.97))).
  { apply mul_unit_unit with (mg := 8736983277098762%positive) (eg := -53).
    - apply unit_range. split; assumption.
    - reflexivity.
    - lia.
    - reflexivity. }
  rewrite (py_min_unit_id _ Hu). reflexivity.
Qed.

Lemma predict_epss_30d_top_band_witness :
  (0.10 <=? 0.5)%float = true /\ (0.5 <=? 1.0)%float = true /\
  finallayer3.predict_epss_30d 0.5 = py_round (0.5 * 0.97) 5.
Proof.
  split; [reflexivity | split; [reflexivity |]].
  apply (predict_epss_30d_top_band 0.5); reflexivity.
Defined.

(** C10: the canonical engine is not monotone: 0.0049 lies below 0.005, yet
    its projection (growth 1.30) lies above the projection of 0.005
    (growth 1.15). *)
Theorem predict_epss_30d_not_monotone :
  exists a b : float,
    (0 <=? a)%float = true /\ (a <? b)%float = true /\ (b <=? 1)%float = true /\
    (finallayer3.predict_epss_30d b <? finallayer3.predict_epss_30d a)%float = true.
Proof.
  exists 0.0049%float, 0.005%float. repeat split; vm_compute; reflexivity.
Qed.

(** C1: [epss_predict] multiplies by 1.15 and rounds, with no clamp: at 0.9,
    inside the unit interval, it returns 1.035. *)
Theorem epss_predict_leaves_unit_interval :
  (0 <=? 0.9)%float = true /\ (0.9 <=? 1)%float = true /\
  fastapi_2.epss_predict 0.9 = 1.035%float /\
  (1 <? fastapi_2.epss_predict 0.9)%float = true.
Proof. repeat split; vm_compute; reflexivity. Qed.

(** The canonical engine keeps the unit interval: for every non-negative
    input, finite or not, the result lies in [0, 1]. *)
Theorem predict_epss_30d_in_unit_interval (current : float) :
  (0 <=? current)%float = true ->
  (0 <=? finallayer3.predict_epss_30d current)%float = true /\
  (finallayer3.predict_epss_30d current <=? 1)%float = true.
Proof.
  intros H0. apply unit_range. unfold finallayer3.predict_epss_30d.
  destruct (current <? 0.005)%float; [|destruct (current <? 0.02)%float;
    [|destruct (current <? 0.10)%float]];
    eapply clamp_round_unit; try exact H0; reflexivity.
Qed.

Lemma predict_epss_30d_in_unit_interval_witness :
  (0 <=? 0.97)%float = true /\
  (0 <=? finallayer3.predict_epss_30d 0.97)%float = true /\
  (finallayer3.predict_epss_30d 0.97 <=? 1)%float = true.
Proof.
  split; [reflexivity |].
  apply (predict_epss_30d_in_unit_interval 0.97); reflexivity.
Defined.

(** So does the five-band engine of [fastapi(1).py]. *)
Theorem predict_epss_30d_v1_in_unit_interval (cur : float) :
  (0 <=? cur)%float = true ->
  (0 <=? fastapi_1.predict_epss_30d cur)%float = true /\
  (fastapi_1.predict_epss_30d cur <=? 1)%float = true.
Proof.
  intros H0. apply unit_range. unfold fastapi_1.predict_epss_30d.
  destruct (cur <? 0.01)%float; [|destruct (cur <? 0.05)%float;
    [|destruct (cur <? 0.20)%float; [|destruct (cur <? 0.50)%float]]];
    eapply clamp_round_unit; try exact H0; reflexivity.
Qed.

Lemma predict_epss_30d_v1_in_unit_interval_witness :
  (0 <=? 0.99)%float = true /\
  (0 <=? fastapi_1.predict_epss_30d 0.99)%float = true /\
  (fastapi_1.predict_epss_30d 0.99 <=? 1)%float = true.
Proof.
  split; [reflexivity |].
  apply (predict_epss_30d_v1_in_unit_interval 0.99); reflexivity.
Defined.

(** ** The score oracle adapters *)

Local Open Scope string_scope.

(** The three failures of the score service: the call itself fails, the
    reply is not JSON, the reply carries an empty data list. *)
Lemma fetch_epss_v1_absorbs (bi : builtins) (w : world) (id : string) :
  (exists e, epss_get w id = Raise e) \/
  (exists r, epss_get w id = Return r /\
     (body r = None \/
      exists d, body r = Some (VDict d) /\ assoc "data" d = Some (VList []))) ->
  fastapi_1.fetch_epss bi w id = 0%float.
Proof.
  unfold fastapi_1.fetch_epss.
  intros [[e ->] | [r [-> Hr]]]; [reflexivity|]. cbn [bind].
  destruct (raise_for_status r); [|reflexivity]. cbn [bind].
  unfold response_json.
  destruct Hr as [-> | [d [-> Hd]]]; [reflexivity|].
  cbn [bind dict_get]. rewrite Hd. reflexivity.
Qed.

Lemma epss_live_absorbs (bi : builtins) (w : world) (id : string) :
  (exists e, epss_get w id = Raise e) \/
  (exists r, epss_get w id = Return r /\
     (body r = None \/
      exists d, body r = Some (VDict d) /\ assoc "data" d = Some (VList []))) ->
  fastapi_2.epss_live bi w id = 0%float.
Proof.
  unfold fastapi_2.epss_live.
  intros [[e ->] | [r [-> Hr]]]; [reflexivity|]. cbn [bind].
  destruct (raise_for_status r); [|reflexivity]. cbn [bind].
  unfold response_json.
  destruct Hr as [-> | [d [-> Hd]]]; [reflexivity|].
  cbn [bind dict_get]. rewrite Hd. reflexivity.
Qed.

(** C4, as the code has it: the two service adapters ([fetch_epss] of
    [fastapi(1).py], [epss_live] of [fastapi(2).py]) turn a failed call, a
    reply that is not JSON and an empty data list into 0.0. *)
Theorem adapters_absorb_failures (bi : builtins) (w : world) (id : string) :
  (exists e, epss_get w id = Raise e) \/
  (exists r, epss_get w id = Return r /\
     (body r = None \/
      exists d, body r = Some (VDict d) /\ assoc "data" d = Some (VList []))) ->
  fastapi_1.fetch_epss bi w id = 0%float /\ fastapi_2.epss_live bi w id = 0%float.
Proof.
  intros H. split; [apply fetch_epss_v1_absorbs | apply epss_live_absorbs]; exact H.
Qed.

Lemma adapters_absorb_failures_witness :
  ((exists e, epss_get Samples.offline "CVE-2023-4863" = Raise e) \/
   (exists r, epss_get Samples.offline "CVE-2023-4863" = Return r /\
      (body r = None \/
       exists d, body r = Some (VDict d) /\ assoc "data" d = Some (VList [])))) /\
  fastapi_1.fetch_epss Samples.toy_builtins Samples.offline "CVE-2023-4863" = 0%float /\
  fastapi_2.epss_live Samples.toy_builtins Samples.offline "CVE-2023-4863" = 0%float.
Proof.
  assert (H : (exists e, epss_get Samples.offline "CVE-2023-4863" = Raise e) \/
   (exists r, epss_get Samples.offline "CVE-2023-4863" = Return r /\
      (body r = None \/
       exists d, body r = Some (VDict d) /\ assoc "data" d = Some (VList [])))).
  { left. exists ConnectionError. reflexivity. }
  split; [exact H |].
  exact (adapters_absorb_failures Samples.toy_builtins Samples.offline "CVE-2023-4863" H).
Defined.

(** C4, against the claim as stated: [fetch_epss] of [finallayer3.py] lets a
    failed call through and raises [RuntimeError] on an empty data list. *)
Lemma fetch_epss_script_raises :
  finallayer3.fetch_epss Samples.toy_builtins Samples.offline "CVE-2023-4863"
    = Raise ConnectionError /\
  finallayer3.fetch_epss Samples.toy_builtins Samples.no_data "CVE-2023-4863"
    = Raise RuntimeError.
Proof. split; reflexivity. Qed.

(** ** The analysis aggregator of [fastapi(2).py] *)

Lemma as_str_list_aux_map (l : list string) :
  fastapi_2.as_str_list_aux (map VStr l) = Return l.
Proof.
  induction l as [|s l IH]; [reflexivity|].
  cbn [map fastapi_2.as_str_list_aux fastapi_2.as_str bind]. rewrite IH. reflexivity.
Qed.

Lemma fallback_products_nonempty (cve : fastapi_2.CVEInput) :
  fastapi_2.fallback_products cve <> [].
Proof.
  unfold fastapi_2.fallback_products.
  destruct (contains "ssh" (lower (fastapi_2.summary cve)));
    destruct (contains "linux" (lower (fastapi_2.description cve))); discriminate.
Qed.

Lemma ai_analyze_fallback (bi : builtins) (w : world) (key : string) (cve : fastapi_2.CVEInput) :
  key = "" \/ (exists e, fastapi_2.completion bi w key cve = Raise e) ->
  fastapi_2.ai_analyze bi w key cve = fastapi_2.fallback cve.
Proof.
  unfold fastapi_2.ai_analyze. intros [-> | [e He]]; [reflexivity|].
  rewrite He. destruct (String.eqb key ""); reflexivity.
Qed.

Lemma draw_plain (bi : builtins) (label : string) (values : list float) :
  has_char "$" label = false -> forallb moderate values = true ->
  draw bi label values = Return tt.
Proof. intros Hl Hv. unfold draw. rewrite Hl, Hv. reflexivity. Qed.

Lemma draw_raises (bi : builtins) (label : string) (values : list float) (e : exn) :
  draw bi label values = Raise e -> renders bi label values = Some e.
Proof.
  unfold draw. destruct (negb (has_char "$" label) && forallb moderate values); [discriminate|].
  destruct (renders bi label values); intros H; inversion H; reflexivity.
Qed.

Lemma cvss_image_inv (bi : builtins) (w : world) (k : nat) (score : float) (id u : string) :
  fastapi_2.cvss_image bi w k score id = Return u ->
  u = "/static/images/" ++ ("cvss_" ++ uuid4_hex w k ++ ".png").
Proof.
  unfold fastapi_2.cvss_image. destruct (draw bi id [score]); cbn [bind]; [|discriminate].
  intros H. inversion H. reflexivity.
Qed.

Lemma epss_image_inv (bi : builtins) (w : world) (k : nat) (a b : float) (id u : string) :
  fastapi_2.epss_image bi w k a b id = Return u ->
  u = "/static/images/" ++ ("epss_" ++ uuid4_hex w k ++ ".png").
Proof.
  unfold fastapi_2.epss_image. destruct (draw bi id [a; b]); cbn [bind]; [|discriminate].
  intros H. inversion H. reflexivity.
Qed.

(** From the fallback bundle, [analyze] draws the two pictures and returns
    the record assembled from the bundle; it raises what the drawing
    raises. *)
Lemma analyze_of_fallback (bi : builtins) (w : world) (key : string) (cve : fastapi_2.CVEInput) :
  fastapi_2.ai_analyze bi w key cve = fastapi_2.fallback cve ->
  fastapi_2.analyze bi w key cve =
    (hp <- pictures bi w cve ;; Return (fallback_response bi w cve (fst hp) (snd hp))).
Proof.
  intros H. unfold fastapi_2.analyze, pictures. rewrite H.
  unfold fastapi_2.fallback.
  cbn [getitem assoc String.eqb Ascii.eqb Bool.eqb bind].
  destruct (fastapi_2.cvss_image bi w 0 _ _) as [h | e]; cbn [bind]; [|reflexivity].
  destruct (fastapi_2.epss_image bi w 1 _ _ _) as [p | e]; cbn [bind]; [|reflexivity].
  cbn [fastapi_2.as_str fastapi_2.as_str_list bind].
  rewrite !as_str_list_aux_map. reflexivity.
Qed.




(** C8: the libwebp record, the completion service unavailable, the score
    service answering 0.02: the route returns a result whose projection is
    0.023 and whose products and fixes are not empty. *)
Theorem end_to_end_libwebp (bi : builtins) (w : world) (key : string) :
  key = "" \/ (exists e, chat_post w key (VDict (fastapi_2.model_dump Samples.libwebp)) = Raise e) ->
  fastapi_2.epss_live bi w "CVE-2023-4863" = 0.02%float ->
  exists r, fastapi_2.post_analyze bi w key Samples.libwebp = Return r /\
    fastapi_2.epss_30d_prediction r = 0.023%float /\
    fastapi_2.affected_products r <> [] /\
    fastapi_2.fixes r <> [].
Proof.
  intros Hdown Hscore.
  assert (Hp : exists h p, pictures bi w Samples.libwebp = Return (h, p)).
  { unfold pictures, fastapi_2.cvss_image, fastapi_2.epss_image.
    change (fastapi_2.cve_id Samples.libwebp) with "CVE-2023-4863". rewrite Hscore.
    rewrite !draw_plain by reflexivity. cbn [bind]. eexists. eexists. reflexivity. }
  destruct Hp as [h [p Hp]].
  exists (fallback_response bi w Samples.libwebp h p). split.
  - unfold fastapi_2.post_analyze.
    change (fastapi_2.CVEInput_validate Samples.libwebp) with (Return Samples.libwebp).
    cbn [bind]. rewrite analyze_of_fallback, Hp; [reflexivity|].
    apply ai_analyze_fallback.
    destruct Hdown as [-> | [e He]]; [left; reflexivity | right].
    exists e. unfold fastapi_2.completion. rewrite He. reflexivity.
  - cbn [fallback_response fastapi_2.epss_30d_prediction fastapi_2.affected_products
         fastapi_2.fixes].
    change (fastapi_2.cve_id Samples.libwebp) with "CVE-2023-4863". rewrite Hscore.
    repeat split; [apply fallback_products_nonempty | discriminate].
Qed.

Lemma end_to_end_libwebp_witness :
  ("" = "" \/
   (exists e, chat_post Samples.scored "" (VDict (fastapi_2.model_dump Samples.libwebp))
              = Raise e)) /\
  fastapi_2.epss_live Samples.toy_builtins Samples.scored "CVE-2023-4863" = 0.02%float /\
  exists r, fastapi_2.post_analyze Samples.toy_builtins Samples.scored "" Samples.libwebp
            = Return r /\
    fastapi_2.epss_30d_prediction r = 0.023%float /\
    fastapi_2.affected_products r <> [] /\
    fastapi_2.fixes r <> [].
Proof.
  split; [left; reflexivity | split; [reflexivity |]].
  apply (end_to_end_libwebp Samples.toy_builtins Samples.scored "");
    [left; reflexivity | reflexivity].
Defined.

(** ** Validation of the input record *)

(** C6, as the code has it: both models reject a score outside [0, 10];
    the model of [fastapi(1).py] also rejects an identifier off the CVE
    pattern, the model of [fastapi(2).py] a severity whose upper-cased form
    is not one of the five levels. *)
Theorem validation_rejects (bi : builtins) (r1 : fastapi_1.CVEInput) (r2 : fastapi_2.CVEInput) :
  (fastapi_1.cve_id_pattern bi (fastapi_1.cve_id r1) = false \/
   (0 <=? fastapi_1.cvss_score r1)%float = false \/
   (fastapi_1.cvss_score r1 <=? 10)%float = false ->
   fastapi_1.CVEInput_validate bi r1 = Raise ValidationError) /\
  (existsb (String.eqb (upper (fastapi_2.severity r2))) fastapi_2.severities = false \/
   (0 <=? fastapi_2.cvss_score r2)%float = false \/
   (fastapi_2.cvss_score r2 <=? 10)%float = false ->
   fastapi_2.CVEInput_validate r2 = Raise ValidationError).
Proof.
  split.
  - unfold fastapi_1.CVEInput_validate. intros [-> | [-> | ->]];
      rewrite ?andb_false_r; reflexivity.
  - unfold fastapi_2.CVEInput_validate, fastapi_2.validate_severity.
    intros [-> | [-> | ->]]; [reflexivity | |];
      destruct (existsb _ _); rewrite ?andb_false_r; reflexivity.
Qed.

Lemma validation_rejects_witness :
  fastapi_1.CVEInput_validate Samples.toy_builtins
    {| fastapi_1.cve_id := "not-a-cve"; fastapi_1.cvss_vector := "";
       fastapi_1.severity := "HIGH"; fastapi_1.cvss_score := 7.5;
       fastapi_1.affected_assets := [] |} = Raise ValidationError /\
  fastapi_2.CVEInput_validate
    {| fastapi_2.cve_id := "CVE-2023-4863"; fastapi_2.cvss_vector := None;
       fastapi_2.severity := "EXTREME"; fastapi_2.cvss_score := 7.5;
       fastapi_2.summary := ""; fastapi_2.description := "" |} = Raise ValidationError.
Proof.
  split.
  - apply (proj1 (validation_rejects Samples.toy_builtins _ Samples.libwebp)). left. reflexivity.
  - apply (proj2 (validation_rejects Samples.toy_builtins Samples.libwebp_v1 _)). left. reflexivity.
Defined.

(** C6, against the claim as stated: the model of [fastapi(2).py] accepts
    the identifier "not-a-cve" and a lower-case severity, the model of
    [fastapi(1).py] accepts the severity "EXTREME". *)
Lemma validation_accepts :
  returns (fastapi_2.CVEInput_validate
    {| fastapi_2.cve_id := "not-a-cve"; fastapi_2.cvss_vector := None;
       fastapi_2.severity := "critical"; fastapi_2.cvss_score := 9.8;
       fastapi_2.summary := "libwebp heap overflow"; fastapi_2.description := "..." |}) = true /\
  returns (fastapi_1.CVEInput_validate Samples.toy_builtins
    {| fastapi_1.cve_id := "CVE-2023-4863"; fastapi_1.cvss_vector := "";
       fastapi_1.severity := "EXTREME"; fastapi_1.cvss_score := 9.8;
       fastapi_1.affected_assets := [] |}) = true.
Proof. split; reflexivity. Qed.

(** ** The completion credential *)

(** C7, as the code has it: with no key in the environment, or an empty
    one, loading [fastapi(2).py] yields the empty key without failing,
    [ai_analyze] answers every record with the fallback bundle, and
    [analyze] returns the record assembled from it whenever its two
    pictures are drawn; [api.py] refuses to load. *)
Theorem missing_credential (bi : builtins) (w : world) (name : string)
  (cve : fastapi_2.CVEInput) :
  (getenv w name = None \/ getenv w name = Some "" ->
   fastapi_2.startup name w = Return "" /\
   fastapi_2.ai_analyze bi w (fastapi_2.OPENROUTER_API_KEY name w) cve
     = fastapi_2.fallback cve /\
   forall heatmap plot, pictures bi w cve = Return (heatmap, plot) ->
     fastapi_2.analyze bi w (fastapi_2.OPENROUTER_API_KEY name w) cve
       = Return (fallback_response bi w cve heatmap plot)) /\
  (getenv w "OPENROUTER_API_KEY" = None \/ getenv w "OPENROUTER_API_KEY" = Some "" ->
   api.API_KEY w = Raise ValueError).
Proof.
  split.
  - intros H.
    assert (K : fastapi_2.OPENROUTER_API_KEY name w = "")
      by (unfold fastapi_2.OPENROUTER_API_KEY; destruct H as [-> | ->]; reflexivity).
    unfold fastapi_2.startup. rewrite K.
    pose proof (ai_analyze_fallback bi w "" cve (or_introl eq_refl)) as F.
    split; [reflexivity | split; [exact F |]].
    intros h p Hp. rewrite (analyze_of_fallback bi w "" cve F), Hp. reflexivity.
  - unfold api.API_KEY. intros [-> | ->]; reflexivity.
Qed.

Lemma missing_credential_witness :
  (fastapi_2.startup "OPENROUTER_API_KEY" Samples.offline = Return "" /\
   fastapi_2.ai_analyze Samples.toy_builtins Samples.offline
     (fastapi_2.OPENROUTER_API_KEY "OPENROUTER_API_KEY" Samples.offline) Samples.libwebp
     = fastapi_2.fallback Samples.libwebp /\
   forall heatmap plot,
     pictures Samples.toy_builtins Samples.offline Samples.libwebp = Return (heatmap, plot) ->
     fastapi_2.analyze Samples.toy_builtins Samples.offline
       (fastapi_2.OPENROUTER_API_KEY "OPENROUTER_API_KEY" Samples.offline) Samples.libwebp
       = Return (fallback_response Samples.toy_builtins Samples.offline Samples.libwebp
                   heatmap plot)) /\
  api.API_KEY Samples.offline = Raise ValueError.
Proof.
  split.
  - apply (proj1 (missing_credential Samples.toy_builtins Samples.offline
                    "OPENROUTER_API_KEY" Samples.libwebp)).
    left. reflexivity.
  - apply (proj2 (missing_credential Samples.toy_builtins Samples.offline
                    "OPENROUTER_API_KEY" Samples.libwebp)).
    left. reflexivity.
Defined.

(** C7, against the claim as stated: with nothing configured, loading
    [api.py] raises. *)
Lemma api_startup_fails : api.API_KEY Samples.offline = Raise ValueError.
Proof. reflexivity. Qed.

(** ** Failures after validation *)

(** C9: a completion that is valid JSON but not the required object is
    returned as it is, and the assembly then fails on the first missing
    field: the route raises [KeyError] after validation has succeeded. *)
Theorem analyze_fails_after_validation (bi : builtins) (w : world) (key : string)
  (raw cve : fastapi_2.CVEInput) :
  fastapi_2.CVEInput_validate raw = Return cve ->
  String.eqb key "" = false ->
  fastapi_2.completion bi w key cve = Return (VDict []) ->
  fastapi_2.post_analyze bi w key raw = Raise KeyError.
Proof.
  intros Hv Hk Hc. unfold fastapi_2.post_analyze. rewrite Hv. cbn [bind].
  unfold fastapi_2.analyze, fastapi_2.ai_analyze. rewrite Hk, Hc. reflexivity.
Qed.

Lemma analyze_fails_after_validation_witness :
  fastapi_2.CVEInput_validate Samples.libwebp = Return Samples.libwebp /\
  String.eqb "key" "" = false /\
  fastapi_2.completion Samples.toy_builtins Samples.empty_completion "key" Samples.libwebp
    = Return (VDict []) /\
  fastapi_2.post_analyze Samples.toy_builtins Samples.empty_completion "key" Samples.libwebp
    = Raise KeyError.
Proof.
  split; [reflexivity | split; [reflexivity | split; [reflexivity |]]].
  apply (analyze_fails_after_validation Samples.toy_builtins Samples.empty_completion "key"
           Samples.libwebp Samples.libwebp); reflexivity.
Defined.

(** ** More on the projection engines *)

Local Open Scope Z_scope.

Lemma nonneg_above (b c : float) mb eb :
  Prim2SF b = S754_finite false mb eb -> (b <=? c)%float = true -> (0 <=? c)%float = true.
Proof.
  intros Hb Hle. rewrite leb_spec in *. rewrite Hb in Hle.
  change (Prim2SF 0) with (S754_zero false).
  destruct (Prim2SF c) as [s | [|] | | [|] m e];
    try reflexivity; cbv [SFleb SFcompare] in Hle; discriminate.
Qed.

(** Between 0.005 and 0.02 the canonical engine multiplies by 1.15 and the
    clamp is the identity: there it agrees with the flat engine of
    [fastapi(2).py]. *)
Theorem predict_epss_30d_second_band (current : float) :
  (0.005 <=? current)%float = true -> (current <? 0.02)%float = true ->
  finallayer3.predict_epss_30d current = py_round (current * 1.15) 5 /\
  finallayer3.predict_epss_30d current = fastapi_2.epss_predict current.
Proof.
  intros Hlo Hhi.
  assert (E : finallayer3.predict_epss_30d current = py_round (current * 1.15) 5);
    [|split; [exact E | rewrite E; reflexivity]].
  unfold finallayer3.predict_epss_30d.
  rewrite (ltb_false_above 0.005 0.005 current 5764607523034235 (-60) 5764607523034235 (-60)
             eq_refl eq_refl ltac:(lia) Hlo), Hhi.
  assert (H0 : (0 <=? current)%float = true)
    by (apply (nonneg_above 0.005 current 5764607523034235 (-60) eq_refl Hlo)).
  assert (Hu : sf_unit (Prim2SF (current * 1.15))).
  { apply mul_small_unit with (mg := 5179139571476070%positive) (eg := -52) (k := -58).
    - apply small_of_ltb with (b := 0.02%float) (mb := 5764607523034235%positive);
        [exact H0 | exact Hhi | reflexivity].
    - reflexivity.
    - reflexivity.
    - lia. }
  rewrite (py_min_unit_id _ Hu). reflexivity.
Qed.

Lemma predict_epss_30d_second_band_witness :
  (0.005 <=? 0.01)%float = true /\ (0.01 <? 0.02)%float = true /\
  finallayer3.predict_epss_30d 0.01 = py_round (0.01 * 1.15) 5 /\
  finallayer3.predict_epss_30d 0.01 = fastapi_2.epss_predict 0.01.
Proof.
  split; [reflexivity | split; [reflexivity |]].
  apply (predict_epss_30d_second_band 0.01); reflexivity.
Defined.

(** Between 0.02 and 0.10 the canonical engine multiplies by 1.05 and the
    clamp is the identity. *)
Theorem predict_epss_30d_third_band (current : float) :
  (0.02 <=? current)%float = true -> (current <? 0.10)%float = true ->
  finallayer3.predict_epss_30d current = py_round (current * 1.05) 5.
Proof.
  intros Hlo Hhi. unfold finallayer3.predict_epss_30d.
  rewrite (ltb_false_above 0.005 0.02 current 5764607523034235 (-60) 5764607523034235 (-58)
             eq_refl eq_refl ltac:(lia) Hlo).
  rewrite (ltb_false_above 0.02 0.02 current 5764607523034235 (-58) 5764607523034235 (-58)
             eq_refl eq_refl ltac:(lia) Hlo), Hhi.
  assert (H0 : (0 <=? current)%float = true)
    by (apply (nonneg_above 0.02 current 5764607523034235 (-58) eq_refl Hlo)).
  assert (Hu : sf_unit (Prim2SF (current * 1.05))).
  { apply mul_small_unit with (mg := 4728779608739021%positive) (eg := -52) (k := -56).
    - apply small_of_ltb with (b := 0.10%float) (mb := 7205759403792794%positive);
        [exact H0 | exact Hhi | reflexivity].
    - reflexivity.
    - reflexivity.
    - lia. }
  rewrite (py_min_unit_id _ Hu). reflexivity.
Qed.

Lemma predict_epss_30d_third_band_witness :
  (0.02 <=? 0.05)%float = true /\ (0.05 <? 0.10)%float = true /\
  finallayer3.predict_epss_30d 0.05 = py_round (0.05 * 1.05) 5.
Proof.
  split; [reflexivity | split; [reflexivity |]].
  apply (predict_epss_30d_third_band 0.05); reflexivity.
Defined.

(** The canonical engine at its three thresholds: each belongs to the band
    above it. *)
Lemma predict_epss_30d_at_boundaries :
  finallayer3.predict_epss_30d 0.005 = 0.00575%float /\
  finallayer3.predict_epss_30d 0.02 = 0.021%float /\
  finallayer3.predict_epss_30d 0.10 = 0.097%float.
Proof. repeat split. Qed.

Lemma rne_div_zero a b : 0 <= a -> 2 * a < b -> rne_div a b = 0.
Proof.
  intros Ha Hb. unfold rne_div.
  rewrite Z.mod_small, Z.div_small by lia.
  destruct (Z.compare_spec (2 * a) b); [lia | reflexivity | lia].
Qed.

(** Anything positive below 0.000005 rounds to 0.0 at five places. *)
Lemma py_round_tiny (x : float) :
  (0 <? x)%float = true -> (x <? 0.000005)%float = true -> py_round x 5 = 0%float.
Proof.
  intros Hpos Hlt. unfold py_round. change (323 <? 5)%N with false. cbv iota.
  rewrite ltb_spec in Hpos, Hlt. change (Prim2SF 0) with (S754_zero false) in Hpos.
  change (Prim2SF 0.000005) with (S754_finite false 5902958103587057 (-70)) in Hlt.
  pose proof (Prim2SF_valid x) as Hv.
  destruct (Prim2SF x) as [s | [|] | | [|] m e] eqn:E;
    try (cbv [SFltb SFcompare] in Hpos, Hlt; discriminate).
  apply SFltb_fin in Hlt. pose proof (valid_mantissa_lt _ _ _ Hv) as Hm.
  assert (Hneg : (0 <=? e) = false) by (apply Z.leb_gt; lia).
  rewrite Hneg. change (10 ^ Z.of_N 5) with 100000.
  rewrite rne_div_zero; [reflexivity | lia |].
  destruct Hlt as [He | [-> Hm5]].
  - assert (Hp : 2 ^ 71 <= 2 ^ (- e)) by (apply Z.pow_le_mono_r; lia).
    change (2 ^ 71) with 2361183241434822606848 in Hp.
    change (2 ^ 53) with 9007199254740992 in Hm. lia.
  - change (2 ^ (- -70)) with 1180591620717411303424. lia.
Qed.

Lemma binary_round_aux_nonzero s M e l s' :
  0 < M -> -1073 <= Zdigits2 M + e ->
  binary_round_aux prec emax s M e l <> S754_zero s'.
Proof.
  intros HM Hbig. rewrite binary_round_aux_unfold. cbv zeta.
  set (r1 := shr_fexp prec emax M e l).
  destruct (shr_fexp_spec M e l ltac:(lia)) as [Hm1 He1]. fold r1 in Hm1, He1.
  set (e1 := snd r1) in *. set (m' := shr_m (fst r1)) in *.
  set (m1 := round_nearest_even m' (loc_of_shr_record (fst r1))).
  rewrite fexp64 in He1.
  pose proof (Zdigits2_bounds M HM) as [HMlo _].
  assert (HdM : 0 < Zdigits2 M) by (destruct M; cbn; lia).
  assert (Hm'1 : 1 <= m').
  { rewrite Hm1. apply Z.div_le_lower_bound; [apply Z.pow_pos_nonneg; lia|].
    rewrite Z.mul_1_r. apply Z.le_trans with (2 := HMlo). apply Z.pow_le_mono_r; lia. }
  pose proof (round_nearest_even_range m' (loc_of_shr_record (fst r1)) ltac:(lia)) as Hr.
  fold m1 in Hr.
  set (r2 := shr_fexp prec emax m1 e1 loc_Exact).
  destruct (shr_fexp_spec m1 e1 loc_Exact ltac:(lia)) as [Hm2 He2]. fold r2 in Hm2, He2.
  set (e2 := snd r2) in *. set (m2 := shr_m (fst r2)) in *.
  rewrite fexp64 in He2.
  pose proof (Zdigits2_bounds m1 ltac:(lia)) as [H1lo _].
  assert (Hd1 : 0 < Zdigits2 m1) by (destruct m1; cbn; lia).
  assert (Hm2pos : 1 <= m2).
  { rewrite Hm2. apply Z.div_le_lower_bound; [apply Z.pow_pos_nonneg; lia|].
    rewrite Z.mul_1_r. apply Z.le_trans with (2 := H1lo). apply Z.pow_le_mono_r; lia. }
  clearbody m2 e2. destruct m2 as [|p|p]; try lia.
  destruct (e2 <=? emax - prec); discriminate.
Qed.

Lemma mul_positive (c g : float) mg eg :
  (0 <? c)%float = true -> Prim2SF g = S754_finite false mg eg ->
  2 ^ 52 <= Zpos mg -> -52 <= eg ->
  (0 <? c * g)%float = true.
Proof.
  intros Hpos Hg Hmg Heg. rewrite ltb_spec in *. rewrite mul_spec, Hg.
  change (Prim2SF 0) with (S754_zero false) in *.
  pose proof (Prim2SF_valid c) as Hv.
  destruct (Prim2SF c) as [s | [|] | | [|] m e] eqn:Ec;
    try (cbv [SFltb SFcompare] in Hpos; discriminate); [reflexivity|].
  pose proof (valid_canonical _ _ _ Hv) as [Hc _].
  pose proof (SFmul_nonneg (S754_finite false m e) mg eg Hv I) as Hn.
  unfold SF64mul, SFmul in *. cbn [xorb] in *.
  assert (Hnz : forall s', binary_round_aux prec emax false (Zpos (m * mg)) (e + eg) loc_Exact
                           <> S754_zero s').
  { intros s'. apply binary_round_aux_nonzero; [lia|].
    assert (53 <= Zdigits2 (Zpos (m * mg))); [|lia].
    apply (Zdigits2_ge_of_le _ 52); [lia|]. rewrite Pos2Z.inj_mul. nia. }
  destruct (binary_round_aux prec emax false (Zpos (m * mg)) (e + eg) loc_Exact)
    as [s | [|] | | [|] m2 e2]; cbn [sf_nonneg] in Hn; try contradiction; try reflexivity.
  exfalso. exact (Hnz s eq_refl).
Qed.

(** The docstring of [predict_epss_30d] in [fastapi(1).py] promises a result
    that is never below the input.  Rounding breaks it at the bottom of
    the scale: a positive input whose product with 1.50 stays below
    0.000005 projects to 0.0. *)
Theorem predict_epss_30d_v1_below_input (cur : float) :
  (0 <? cur)%float = true -> (cur <? 0.01)%float = true ->
  (cur * 1.50 <? 0.000005)%float = true ->
  fastapi_1.predict_epss_30d cur = 0%float /\
  (fastapi_1.predict_epss_30d cur <? cur)%float = true.
Proof.
  intros Hpos Hband Hsmall.
  assert (E : fastapi_1.predict_epss_30d cur = 0%float); [|rewrite E; split; [reflexivity | exact Hpos]].
  unfold fastapi_1.predict_epss_30d. rewrite Hband.
  assert (H0 : (0 <=? cur)%float = true).
  { rewrite leb_spec. rewrite ltb_spec in Hpos. unfold SFleb. unfold SFltb in Hpos.
    destruct (SFcompare (Prim2SF 0) (Prim2SF cur)) as [[| |]|]; try discriminate; reflexivity. }
  assert (Hu : sf_unit (Prim2SF (cur * 1.50))).
  { apply mul_small_unit with (mg := 6755399441055744%positive) (eg := -52) (k := -59).
    - apply small_of_ltb with (b := 0.01%float) (mb := 5764607523034235%positive);
        [exact H0 | exact Hband | reflexivity].
    - reflexivity.
    - reflexivity.
    - lia. }
  rewrite (py_min_unit_id _ Hu).
  apply py_round_tiny; [|exact Hsmall].
  apply mul_positive with (mg := 6755399441055744%positive) (eg := -52);
    [exact Hpos | reflexivity | discriminate | lia].
Qed.

Lemma predict_epss_30d_v1_below_input_witness :
  (0 <? 0.000001)%float = true /\ (0.000001 <? 0.01)%float = true /\
  (0.000001 * 1.50 <? 0.000005)%float = true /\
  fastapi_1.predict_epss_30d 0.000001 = 0%float /\
  (fastapi_1.predict_epss_30d 0.000001 <? 0.000001)%float = true.
Proof.
  split; [reflexivity | split; [reflexivity | split; [reflexivity |]]].
  apply (predict_epss_30d_v1_below_input 0.000001); reflexivity.
Defined.

(** ** More on the score oracle adapters *)

Local Open Scope string_scope.

(** The three adapters read the reply the same way.  Where the script's
    [fetch_epss] returns a score, the two services return that score; where
    it raises, whatever the reason, they return 0.0; and the two services
    never differ. *)
Theorem fetch_epss_variants_agree (bi : builtins) (w : world) (id : string) :
  fastapi_1.fetch_epss bi w id =
    match finallayer3.fetch_epss bi w id with
    | Return v => v
    | Raise _ => 0%float
    end /\
  fastapi_2.epss_live bi w id = fastapi_1.fetch_epss bi w id.
Proof.
  unfold fastapi_1.fetch_epss, finallayer3.fetch_epss, fastapi_2.epss_live.
  destruct (epss_get w id) as [r | e]; [|split; reflexivity]. cbn [bind].
  destruct (raise_for_status r); [|split; reflexivity]. cbn [bind].
  destruct (response_json r) as [reply | e]; [|split; reflexivity]. cbn [bind].
  destruct reply as [| b | z | f | s | l | d]; try (split; reflexivity).
  cbn [dict_get bind getitem].
  destruct (assoc "data" d) as [x |]; [|split; reflexivity].
  destruct (truthy x); cbn [negb bind]; split; reflexivity.
Qed.

(** A well-formed reply: a status below 400, a JSON object whose data list
    starts with an object holding a convertible [epss] field.  All three
    adapters return the converted score. *)
Theorem fetch_epss_reads_first_entry (bi : builtins) (w : world) (id : string)
  (r : response) (d x : list (string * value)) (rest : list value) (v : value) (f : float) :
  epss_get w id = Return r ->
  (status_code r <? 400)%Z = true ->
  body r = Some (VDict d) ->
  assoc "data" d = Some (VList (VDict x :: rest)) ->
  assoc "epss" x = Some v ->
  py_float bi v = Return f ->
  finallayer3.fetch_epss bi w id = Return f /\
  fastapi_1.fetch_epss bi w id = f /\
  fastapi_2.epss_live bi w id = f.
Proof.
  intros Hget Hst Hbody Hdata Hepss Hf.
  assert (Hok : raise_for_status r = Return tt).
  { unfold raise_for_status. apply Z.ltb_lt in Hst.
    destruct (400 <=? status_code r)%Z eqn:E; [apply Z.leb_le in E; lia | reflexivity]. }
  unfold finallayer3.fetch_epss, fastapi_1.fetch_epss, fastapi_2.epss_live.
  rewrite Hget. cbn [bind]. rewrite Hok. cbn [bind].
  unfold response_json. rewrite Hbody. cbn [bind dict_get getitem]. rewrite Hdata.
  cbn [truthy negb bind getitem0 getitem]. rewrite Hepss. cbn [bind]. rewrite Hf.
  repeat split.
Qed.

Lemma fetch_epss_reads_first_entry_witness :
  epss_get Samples.scored "CVE-2023-4863"
    = Return (Samples.score_reply (VList [VDict [("cve", VStr "CVE-2023-4863");
                                                 ("epss", VStr "0.02")]])) /\
  finallayer3.fetch_epss Samples.toy_builtins Samples.scored "CVE-2023-4863"
    = Return 0.02%float /\
  fastapi_1.fetch_epss Samples.toy_builtins Samples.scored "CVE-2023-4863" = 0.02%float /\
  fastapi_2.epss_live Samples.toy_builtins Samples.scored "CVE-2023-4863" = 0.02%float.
Proof.
  split; [reflexivity |].
  apply (fetch_epss_reads_first_entry Samples.toy_builtins Samples.scored "CVE-2023-4863"
           (Samples.score_reply (VList [VDict [("cve", VStr "CVE-2023-4863");
                                               ("epss", VStr "0.02")]]))
           [("status", VStr "OK");
            ("data", VList [VDict [("cve", VStr "CVE-2023-4863"); ("epss", VStr "0.02")]])]
           [("cve", VStr "CVE-2023-4863"); ("epss", VStr "0.02")] [] (VStr "0.02") 0.02%float);
    reflexivity.
Defined.

(** ** The result store of [fastapi(1).py] *)

Lemma store_get_set_same k v st : fastapi_1.store_get k (fastapi_1.store_set k v st) = Some v.
Proof.
  induction st as [|[k' v'] st IH]; cbn [fastapi_1.store_set fastapi_1.store_get].
  - rewrite String.eqb_refl. reflexivity.
  - destruct (String.eqb k k') eqn:E; cbn [fastapi_1.store_get]; rewrite ?String.eqb_refl, ?E; auto.
Qed.

Lemma store_get_set_other k k' v st :
  k <> k' -> fastapi_1.store_get k' (fastapi_1.store_set k v st) = fastapi_1.store_get k' st.
Proof.
  intros Hne. induction st as [|[k2 v2] st IH]; cbn [fastapi_1.store_set fastapi_1.store_get].
  - destruct (String.eqb_spec k' k); [congruence | reflexivity].
  - destruct (String.eqb_spec k k2) as [-> | Hk]; cbn [fastapi_1.store_get].
    + destruct (String.eqb_spec k' k2); [congruence | reflexivity].
    + destruct (String.eqb_spec k' k2); [reflexivity | exact IH].
Qed.

Lemma validate_v1_inv bi raw data :
  fastapi_1.CVEInput_validate bi raw = Return data ->
  data = raw /\ fastapi_1.cve_id_pattern bi (fastapi_1.cve_id raw) = true /\
  (0 <=? fastapi_1.cvss_score raw)%float = true /\
  (fastapi_1.cvss_score raw <=? 10)%float = true.
Proof.
  unfold fastapi_1.CVEInput_validate.
  destruct (fastapi_1.cve_id_pattern bi (fastapi_1.cve_id raw)); [|discriminate].
  destruct (0 <=? fastapi_1.cvss_score raw)%float; [|discriminate].
  destruct (fastapi_1.cvss_score raw <=? 10)%float; [|discriminate].
  intros H. inversion H. auto.
Qed.

Lemma analyze_v1_store bi w key raw data st :
  fastapi_1.CVEInput_validate bi raw = Return data ->
  snd (fastapi_1.analyze bi w key (Some raw) st)
    = fastapi_1.store_set (fastapi_1.cve_id data) (entry_of bi w data) st.
Proof.
  intros Hv. unfold fastapi_1.analyze. rewrite Hv.
  destruct (fastapi_1.ai_generate_analysis bi w key data); reflexivity.
Qed.

(** What [analyze] stores is what [visuals] finds: after a valid record has
    been analysed, its identifier resolves to its score, the current
    probability and the projection of that probability, whatever the
    completion service answered. *)
Theorem analyze_then_visuals (bi : builtins) (w : world) (key : string)
  (raw data : fastapi_1.CVEInput) (st : fastapi_1.store) :
  fastapi_1.CVEInput_validate bi raw = Return data ->
  fastapi_1.visuals (snd (fastapi_1.analyze bi w key (Some raw) st)) (fastapi_1.cve_id data)
    = Return (entry_of bi w data).
Proof.
  intros Hv. rewrite (analyze_v1_store _ _ _ _ _ _ Hv).
  unfold fastapi_1.visuals. rewrite store_get_set_same. reflexivity.
Qed.

Lemma analyze_then_visuals_witness :
  fastapi_1.CVEInput_validate Samples.toy_builtins Samples.libwebp_v1 = Return Samples.libwebp_v1 /\
  fastapi_1.visuals
    (snd (fastapi_1.analyze Samples.toy_builtins Samples.scored "key"
            (Some Samples.libwebp_v1) []))
    "CVE-2023-4863"
  = Return (entry_of Samples.toy_builtins Samples.scored Samples.libwebp_v1).
Proof.
  split; [reflexivity |].
  apply (analyze_then_visuals Samples.toy_builtins Samples.scored "key"
           Samples.libwebp_v1 Samples.libwebp_v1 []).
  reflexivity.
Defined.

(** A request touches one key at most: the entry of every identifier other
    than the submitted one is what it was. *)
Theorem analyze_store_frame (bi : builtins) (w : world) (key : string)
  (parsed : option fastapi_1.CVEInput) (st : fastapi_1.store) (k : string) :
  (forall raw, parsed = Some raw -> fastapi_1.cve_id raw <> k) ->
  fastapi_1.store_get k (snd (fastapi_1.analyze bi w key parsed st)) = fastapi_1.store_get k st.
Proof.
  intros Hk. destruct parsed as [raw |]; [|reflexivity].
  destruct (fastapi_1.CVEInput_validate bi raw) as [data | e] eqn:Hv.
  - rewrite (analyze_v1_store _ _ _ _ _ _ Hv).
    destruct (validate_v1_inv _ _ _ Hv) as [-> _].
    apply store_get_set_other. apply (Hk raw eq_refl).
  - unfold fastapi_1.analyze. rewrite Hv. reflexivity.
Qed.

Lemma analyze_store_frame_witness :
  (forall raw, Some Samples.libwebp_v1 = Some raw -> fastapi_1.cve_id raw <> "CVE-2021-44228") /\
  fastapi_1.store_get "CVE-2021-44228"
    (snd (fastapi_1.analyze Samples.toy_builtins Samples.scored "key"
            (Some Samples.libwebp_v1) []))
  = fastapi_1.store_get "CVE-2021-44228" [].
Proof.
  assert (H : forall raw, Some Samples.libwebp_v1 = Some raw ->
                          fastapi_1.cve_id raw <> "CVE-2021-44228").
  { intros raw E. inversion E. discriminate. }
  split; [exact H |].
  exact (analyze_store_frame Samples.toy_builtins Samples.scored "key"
           (Some Samples.libwebp_v1) [] "CVE-2021-44228" H).
Defined.

(** A rejected submission (text that does not decode, an identifier off the
    pattern, a score outside [0, 10]) gets the invalid-input page whatever
    the two services would have answered, and the store is left as it
    was. *)
Theorem analyze_rejects (bi : builtins) (w : world) (key : string)
  (parsed : option fastapi_1.CVEInput) (st : fastapi_1.store) :
  parsed = None \/
  (exists raw, parsed = Some raw /\
     (fastapi_1.cve_id_pattern bi (fastapi_1.cve_id raw) = false \/
      (0 <=? fastapi_1.cvss_score raw)%float = false \/
      (fastapi_1.cvss_score raw <=? 10)%float = false)) ->
  fastapi_1.analyze bi w key parsed st = (Return fastapi_1.InvalidPage, st).
Proof.
  intros [-> | [raw [-> H]]]; [reflexivity|].
  unfold fastapi_1.analyze, fastapi_1.CVEInput_validate.
  destruct H as [-> | [-> | ->]]; rewrite ?andb_false_r; reflexivity.
Qed.

Lemma analyze_rejects_witness :
  (@None fastapi_1.CVEInput = None \/
   (exists raw, @None fastapi_1.CVEInput = Some raw /\
      (fastapi_1.cve_id_pattern Samples.toy_builtins (fastapi_1.cve_id raw) = false \/
       (0 <=? fastapi_1.cvss_score raw)%float = false \/
       (fastapi_1.cvss_score raw <=? 10)%float = false))) /\
  fastapi_1.analyze Samples.toy_builtins Samples.offline "key" None []
    = (Return fastapi_1.InvalidPage, []).
Proof.
  split; [left; reflexivity |].
  apply (analyze_rejects Samples.toy_builtins Samples.offline "key" None []).
  left. reflexivity.
Defined.

(** Invariant of the store: every key matches the CVE pattern, every stored
    score lies in [0, 10], and every stored projection is the projection of
    the stored probability.  [analyze] keeps it, for every input and every
    behaviour of the two services. *)
Theorem analyze_keeps_store_ok (bi : builtins) (w : world) (key : string)
  (parsed : option fastapi_1.CVEInput) (st : fastapi_1.store) :
  store_ok bi st -> store_ok bi (snd (fastapi_1.analyze bi w key parsed st)).
Proof.
  intros Hok. destruct parsed as [raw |]; [|exact Hok].
  destruct (fastapi_1.CVEInput_validate bi raw) as [data | e] eqn:Hv.
  - rewrite (analyze_v1_store _ _ _ _ _ _ Hv).
    destruct (validate_v1_inv _ _ _ Hv) as [-> [Hp [H0 H10]]].
    intros k v Hget. destruct (String.eqb_spec (fastapi_1.cve_id raw) k) as [<- | Hne].
    + rewrite store_get_set_same in Hget. inversion Hget. subst v.
      unfold entry_ok, entry_of. cbn. auto.
    + rewrite store_get_set_other in Hget by exact Hne. apply Hok, Hget.
  - unfold fastapi_1.analyze. rewrite Hv. exact Hok.
Qed.

Lemma analyze_keeps_store_ok_witness :
  store_ok Samples.toy_builtins [] /\
  store_ok Samples.toy_builtins (snd (fastapi_1.analyze Samples.toy_builtins Samples.scored "key"
                   (Some Samples.libwebp_v1) [])).
Proof.
  assert (H : store_ok Samples.toy_builtins []) by (intros k v Hget; discriminate Hget).
  split; [exact H |].
  exact (analyze_keeps_store_ok Samples.toy_builtins Samples.scored "key"
           (Some Samples.libwebp_v1) [] H).
Defined.

(** ** The result page of [fastapi(1).py] *)

Lemma assoc_dict_set k k' v d :
  assoc k (fastapi_1.dict_set k' v d) = if String.eqb k k' then Some v else assoc k d.
Proof.
  induction d as [|[k2 v2] d IH]; cbn [fastapi_1.dict_set assoc].
  - reflexivity.
  - destruct (String.eqb_spec k' k2) as [-> | Hne]; cbn [assoc].
    + destruct (String.eqb k k2); reflexivity.
    + rewrite IH. destruct (String.eqb_spec k k2) as [-> | Hk]; [|reflexivity].
      destruct (String.eqb_spec k2 k'); [congruence | reflexivity].
Qed.

Lemma assoc_app k l1 l2 :
  assoc k (l1 ++ l2)%list = match assoc k l1 with Some v => Some v | None => assoc k l2 end.
Proof.
  induction l1 as [|[k1 v1] l1 IH]; cbn [app assoc]; [reflexivity|].
  destruct (String.eqb k k1); [reflexivity | exact IH].
Qed.

(** [{**d, **extra}]: the last binding of a key in [extra] wins, then [d]. *)
Lemma assoc_dict_update k extra : forall d,
  assoc k (fastapi_1.dict_update d extra) =
  match assoc k (rev extra) with Some v => Some v | None => assoc k d end.
Proof.
  unfold fastapi_1.dict_update.
  induction extra as [|[k1 v1] extra IH]; intros d; cbn [fold_left rev fst snd].
  - reflexivity.
  - rewrite IH, assoc_app, assoc_dict_set. cbn [assoc].
    destruct (assoc k (rev extra)); [reflexivity|].
    destruct (String.eqb k k1); reflexivity.
Qed.

(** The page of a valid record, when the completion is a JSON object: the
    two scores are the adapter's and the engine's, whatever the completion
    says about them; every other field is the completion's if it binds it
    (the last binding wins), and the record's otherwise, so a completion
    can replace a field of the submitted record, its identifier included. *)
Theorem analyze_page_fields (bi : builtins) (w : world) (key : string)
  (raw data : fastapi_1.CVEInput) (st : fastapi_1.store) (extra : list (string * value)) :
  fastapi_1.CVEInput_validate bi raw = Return data ->
  fastapi_1.ai_generate_analysis bi w key data = VDict extra ->
  exists final,
    fst (fastapi_1.analyze bi w key (Some raw) st)
      = Return (fastapi_1.ResultPage final ("/visuals/" ++ fastapi_1.cve_id data)) /\
    assoc "epss_score" final = Some (VFloat (fastapi_1.fetch_epss bi w (fastapi_1.cve_id data))) /\
    assoc "epss_30d_prediction" final
      = Some (VFloat (fastapi_1.predict_epss_30d
                        (fastapi_1.fetch_epss bi w (fastapi_1.cve_id data)))) /\
    forall k, k <> "epss_score" -> k <> "epss_30d_prediction" ->
      assoc k final = match assoc k (rev extra) with
                      | Some v => Some v
                      | None => assoc k (fastapi_1.model_dump data)
                      end.
Proof.
  intros Hv Hai. unfold fastapi_1.analyze. rewrite Hv, Hai. cbn [fst].
  eexists. split; [reflexivity|].
  rewrite !assoc_dict_update. cbn [rev app assoc]. repeat split.
  intros k H1 H2. rewrite assoc_dict_update. cbn [rev app assoc].
  destruct (String.eqb_spec k "epss_30d_prediction"); [contradiction|].
  destruct (String.eqb_spec k "epss_score"); [contradiction|].
  apply assoc_dict_update.
Qed.

(** When the completion call fails (the call itself raises, the status is
    an error or the body is not JSON), [ai_generate_analysis] returns its
    fixed bundle, whose lists are empty. *)
Theorem ai_generate_analysis_unavailable (bi : builtins) (w : world) (key : string)
  (cve : fastapi_1.CVEInput) :
  (exists e, chat_post w key (VDict (fastapi_1.model_dump cve)) = Raise e) \/
  (exists r, chat_post w key (VDict (fastapi_1.model_dump cve)) = Return r /\
     (((400 <=? status_code r) && (status_code r <? 600))%Z = true \/ body r = None)) ->
  fastapi_1.ai_generate_analysis bi w key cve = fastapi_1.unavailable /\
  getitem (fastapi_1.ai_generate_analysis bi w key cve) "affected_products"
    = Return (VList []) /\
  getitem (fastapi_1.ai_generate_analysis bi w key cve) "fixes" = Return (VList []).
Proof.
  intros H.
  assert (E : fastapi_1.ai_generate_analysis bi w key cve = fastapi_1.unavailable);
    [|rewrite E; repeat split].
  unfold fastapi_1.ai_generate_analysis.
  destruct H as [[e ->] | [r [-> Hr]]]; [reflexivity|]. cbn [bind].
  unfold raise_for_status, response_json.
  destruct Hr as [-> | Hb]; [reflexivity|].
  destruct ((400 <=? status_code r) && (status_code r <? 600))%Z; [reflexivity|].
  cbn [bind]. rewrite Hb. reflexivity.
Qed.

Lemma ai_generate_analysis_unavailable_witness :
  fastapi_1.ai_generate_analysis Samples.toy_builtins Samples.offline "key" Samples.libwebp_v1
    = fastapi_1.unavailable /\
  getitem (fastapi_1.ai_generate_analysis Samples.toy_builtins Samples.offline "key"
             Samples.libwebp_v1) "affected_products" = Return (VList []) /\
  getitem (fastapi_1.ai_generate_analysis Samples.toy_builtins Samples.offline "key"
             Samples.libwebp_v1) "fixes" = Return (VList []).
Proof.
  apply (ai_generate_analysis_unavailable Samples.toy_builtins Samples.offline "key"
           Samples.libwebp_v1).
  left. exists ConnectionError. reflexivity.
Defined.

Lemma analyze_page_fields_witness :
  fastapi_1.CVEInput_validate Samples.toy_builtins Samples.libwebp_v1 = Return Samples.libwebp_v1 /\
  fastapi_1.ai_generate_analysis Samples.toy_builtins Samples.empty_completion "key"
    Samples.libwebp_v1 = VDict [] /\
  exists final,
    fst (fastapi_1.analyze Samples.toy_builtins Samples.empty_completion "key"
           (Some Samples.libwebp_v1) [])
      = Return (fastapi_1.ResultPage final
                  ("/visuals/" ++ fastapi_1.cve_id Samples.libwebp_v1)) /\
    assoc "epss_score" final
      = Some (VFloat (fastapi_1.fetch_epss Samples.toy_builtins Samples.empty_completion
                        (fastapi_1.cve_id Samples.libwebp_v1))) /\
    assoc "epss_30d_prediction" final
      = Some (VFloat (fastapi_1.predict_epss_30d
                        (fastapi_1.fetch_epss Samples.toy_builtins Samples.empty_completion
                           (fastapi_1.cve_id Samples.libwebp_v1)))) /\
    forall k, k <> "epss_score" -> k <> "epss_30d_prediction" ->
      assoc k final = match assoc k (rev []) with
                      | Some v => Some v
                      | None => assoc k (fastapi_1.model_dump Samples.libwebp_v1)
                      end.
Proof.
  split; [reflexivity | split; [reflexivity |]].
  apply (analyze_page_fields Samples.toy_builtins Samples.empty_completion "key"
           Samples.libwebp_v1 Samples.libwebp_v1 [] []); reflexivity.
Defined.

(** ** More on the aggregator of [fastapi(2).py] *)

(** The fallback products follow the two keyword tests: "OpenSSH" is listed
    exactly when the lower-cased summary contains "ssh", "Linux systems"
    exactly when the lower-cased description contains "linux", and the
    placeholder exactly when neither does; nothing else is ever listed. *)
Theorem fallback_products_spec (cve : fastapi_2.CVEInput) :
  let ssh := contains "ssh" (lower (fastapi_2.summary cve)) in
  let linux := contains "linux" (lower (fastapi_2.description cve)) in
  fastapi_2.fallback_products cve =
    match ssh, linux with
    | true, true => ["OpenSSH"; "Linux systems"]
    | true, false => ["OpenSSH"]
    | false, true => ["Linux systems"]
    | false, false => ["Affected software components"]
    end /\
  (In "OpenSSH" (fastapi_2.fallback_products cve) <-> ssh = true) /\
  (In "Linux systems" (fastapi_2.fallback_products cve) <-> linux = true) /\
  (In "Affected software components" (fastapi_2.fallback_products cve)
     <-> ssh = false /\ linux = false).
Proof.
  cbv zeta. unfold fastapi_2.fallback_products.
  destruct (contains "ssh" (lower (fastapi_2.summary cve)));
    destruct (contains "linux" (lower (fastapi_2.description cve)));
    cbn [app In]; (split; [reflexivity|]);
    repeat split; intros; auto;
    repeat match goal with
           | H : _ \/ _ |- _ => destruct H
           | H : _ /\ _ |- _ => destruct H
           | H : False |- _ => contradiction
           end; try discriminate.
Qed.

Lemma validate_severity_inv v sev :
  fastapi_2.validate_severity v = Return sev ->
  sev = upper v /\ In sev fastapi_2.severities.
Proof.
  unfold fastapi_2.validate_severity.
  destruct (existsb (String.eqb (upper v)) fastapi_2.severities) eqn:E; [|discriminate].
  intros H. inversion H. split; [reflexivity|].
  apply existsb_exists in E. destruct E as [x [Hin Heq]].
  apply String.eqb_eq in Heq. rewrite Heq. exact Hin.
Qed.

Lemma validate_v2_inv raw cve :
  fastapi_2.CVEInput_validate raw = Return cve ->
  cve = {| fastapi_2.cve_id := fastapi_2.cve_id raw;
           fastapi_2.cvss_vector := fastapi_2.cvss_vector raw;
           fastapi_2.severity := upper (fastapi_2.severity raw);
           fastapi_2.cvss_score := fastapi_2.cvss_score raw;
           fastapi_2.summary := fastapi_2.summary raw;
           fastapi_2.description := fastapi_2.description raw |} /\
  In (upper (fastapi_2.severity raw)) fastapi_2.severities /\
  (0 <=? fastapi_2.cvss_score raw)%float = true /\
  (fastapi_2.cvss_score raw <=? 10)%float = true.
Proof.
  unfold fastapi_2.CVEInput_validate.
  destruct (fastapi_2.validate_severity (fastapi_2.severity raw)) as [sev | e] eqn:Hs;
    [|discriminate].
  destruct (validate_severity_inv _ _ Hs) as [-> Hin].
  destruct (0 <=? fastapi_2.cvss_score raw)%float; [|discriminate].
  destruct (fastapi_2.cvss_score raw <=? 10)%float; [|discriminate].
  intros H. inversion H. auto.
Qed.

(** Validation normalises and is idempotent: an accepted record differs
    from the submitted one in its severity only (identifier, vector, score,
    summary and description are the submitted ones), the severity is the
    upper-cased one and one of the five levels, the score lies in [0, 10],
    and validating the record again changes nothing. *)
Theorem validate_v2_normalises (raw cve : fastapi_2.CVEInput) :
  fastapi_2.CVEInput_validate raw = Return cve ->
  fastapi_2.severity cve = upper (fastapi_2.severity raw) /\
  In (fastapi_2.severity cve) fastapi_2.severities /\
  fastapi_2.cve_id cve = fastapi_2.cve_id raw /\
  fastapi_2.cvss_vector cve = fastapi_2.cvss_vector raw /\
  fastapi_2.cvss_score cve = fastapi_2.cvss_score raw /\
  (0 <=? fastapi_2.cvss_score cve)%float = true /\
  (fastapi_2.cvss_score cve <=? 10)%float = true /\
  fastapi_2.summary cve = fastapi_2.summary raw /\
  fastapi_2.description cve = fastapi_2.description raw /\
  fastapi_2.CVEInput_validate cve = Return cve.
Proof.
  intros Hv. destruct (validate_v2_inv _ _ Hv) as [-> [Hin [H0 H10]]]. cbn.
  repeat split; try exact Hin; try exact H0; try exact H10.
  unfold fastapi_2.CVEInput_validate, fastapi_2.validate_severity. cbn.
  rewrite H0, H10.
  unfold fastapi_2.severities in Hin. cbn [In] in Hin.
  destruct Hin as [<- | [<- | [<- | [<- | [<- | []]]]]]; reflexivity.
Qed.

Lemma validate_v2_normalises_witness :
  fastapi_2.CVEInput_validate
    {| fastapi_2.cve_id := "CVE-2023-4863"; fastapi_2.cvss_vector := None;
       fastapi_2.severity := "Critical"; fastapi_2.cvss_score := 9.8;
       fastapi_2.summary := "libwebp heap overflow"; fastapi_2.description := "..." |}
    = Return Samples.libwebp /\
  fastapi_2.severity Samples.libwebp = upper "Critical" /\
  In (fastapi_2.severity Samples.libwebp) fastapi_2.severities /\
  fastapi_2.cve_id Samples.libwebp = "CVE-2023-4863" /\
  fastapi_2.cvss_vector Samples.libwebp = None /\
  fastapi_2.cvss_score Samples.libwebp = 9.8%float /\
  (0 <=? fastapi_2.cvss_score Samples.libwebp)%float = true /\
  (fastapi_2.cvss_score Samples.libwebp <=? 10)%float = true /\
  fastapi_2.summary Samples.libwebp = "libwebp heap overflow" /\
  fastapi_2.description Samples.libwebp = "..." /\
  fastapi_2.CVEInput_validate Samples.libwebp = Return Samples.libwebp.
Proof.
  split; [reflexivity |].
  apply (validate_v2_normalises
           {| fastapi_2.cve_id := "CVE-2023-4863"; fastapi_2.cvss_vector := None;
              fastapi_2.severity := "Critical"; fastapi_2.cvss_score := 9.8;
              fastapi_2.summary := "libwebp heap overflow"; fastapi_2.description := "..." |}
           Samples.libwebp).
  reflexivity.
Defined.

Lemma getitem_raises v k e : getitem v k = Raise e -> e = KeyError \/ e = TypeError.
Proof.
  destruct v as [| b | z | f | s | l | d]; cbn [getitem];
    try (intros H; inversion H; auto; fail).
  destruct (assoc k d); intros H; inversion H; auto.
Qed.

Lemma as_str_raises v e : fastapi_2.as_str v = Raise e -> e = ValidationError.
Proof. destruct v; cbn; intros H; inversion H; reflexivity. Qed.

Lemma as_str_list_aux_raises l e :
  fastapi_2.as_str_list_aux l = Raise e -> e = ValidationError.
Proof.
  induction l as [|v l IH]; cbn [fastapi_2.as_str_list_aux]; [discriminate|].
  destruct (fastapi_2.as_str v) eqn:Ev; cbn [bind].
  - destruct (fastapi_2.as_str_list_aux l); cbn [bind]; [discriminate|].
    intros H. inversion H. subst. apply IH. reflexivity.
  - intros H. inversion H. subst. apply (as_str_raises _ _ Ev).
Qed.

Lemma as_str_list_raises v e : fastapi_2.as_str_list v = Raise e -> e = ValidationError.
Proof.
  destruct v; cbn [fastapi_2.as_str_list]; try (intros H; inversion H; reflexivity).
  apply as_str_list_aux_raises.
Qed.

Lemma validate_v2_raises raw e :
  fastapi_2.CVEInput_validate raw = Raise e -> e = ValidationError.
Proof.
  unfold fastapi_2.CVEInput_validate.
  destruct (fastapi_2.validate_severity (fastapi_2.severity raw));
    [destruct ((0 <=? _)%float && _)|]; intros H; inversion H; reflexivity.
Qed.

Ltac step_bind H :=
  match type of H with
  | bind ?m _ = _ =>
      let E := fresh "E" in
      destruct m eqn:E; cbn [bind] in H
  end.

Lemma cvss_image_raises (bi : builtins) (w : world) (k : nat) (score : float)
  (id : string) (e : exn) :
  fastapi_2.cvss_image bi w k score id = Raise e -> renders bi id [score] = Some e.
Proof.
  unfold fastapi_2.cvss_image. destruct (draw bi id [score]) eqn:E; cbn [bind]; [discriminate|].
  intros H. inversion H. subst. apply (draw_raises _ _ _ _ E).
Qed.

Lemma epss_image_raises (bi : builtins) (w : world) (k : nat) (a b : float)
  (id : string) (e : exn) :
  fastapi_2.epss_image bi w k a b id = Raise e -> renders bi id [a; b] = Some e.
Proof.
  unfold fastapi_2.epss_image. destruct (draw bi id [a; b]) eqn:E; cbn [bind]; [discriminate|].
  intros H. inversion H. subst. apply (draw_raises _ _ _ _ E).
Qed.

(** The route of [fastapi(2).py] never surfaces a failure of the score
    service or of the completion service: whatever the two do, what the
    route raises is a [ValidationError], a [KeyError] or a [TypeError], or
    the exception with which the plotting library refused the heat map of
    the submitted score or the plot of the probability and its
    projection. *)
Theorem post_analyze_failures (bi : builtins) (w : world) (key : string)
  (raw : fastapi_2.CVEInput) (e : exn) :
  fastapi_2.post_analyze bi w key raw = Raise e ->
  e = ValidationError \/ e = KeyError \/ e = TypeError \/
  renders bi (fastapi_2.cve_id raw) [fastapi_2.cvss_score raw] = Some e \/
  renders bi (fastapi_2.cve_id raw)
    [fastapi_2.epss_live bi w (fastapi_2.cve_id raw);
     fastapi_2.epss_predict (fastapi_2.epss_live bi w (fastapi_2.cve_id raw))] = Some e.
Proof.
  unfold fastapi_2.post_analyze. intros H. step_bind H.
  - destruct (validate_v2_inv _ _ E) as [-> _].
    unfold fastapi_2.analyze in H.
    cbn [fastapi_2.cve_id fastapi_2.cvss_score] in H.
    repeat (step_bind H;
            [| inversion H; subst;
               first [ match goal with
                       | E : getitem _ _ = Raise _ |- _ =>
                           destruct (getitem_raises _ _ _ E); auto
                       end
                     | match goal with
                       | E : fastapi_2.as_str _ = Raise _ |- _ =>
                           left; apply (as_str_raises _ _ E)
                       end
                     | match goal with
                       | E : fastapi_2.as_str_list _ = Raise _ |- _ =>
                           left; apply (as_str_list_raises _ _ E)
                       end
                     | match goal with
                       | E : fastapi_2.cvss_image _ _ _ _ _ = Raise _ |- _ =>
                           do 3 right; left; apply (cvss_image_raises _ _ _ _ _ _ E)
                       end
                     | match goal with
                       | E : fastapi_2.epss_image _ _ _ _ _ _ = Raise _ |- _ =>
                           do 4 right; apply (epss_image_raises _ _ _ _ _ _ _ E)
                       end ]]).
    discriminate.
  - inversion H. subst. left. apply (validate_v2_raises _ _ E).
Qed.

Lemma post_analyze_failures_witness :
  fastapi_2.post_analyze Samples.toy_builtins Samples.offline "" Samples.dollars
    = Raise ValueError /\
  (ValueError = ValidationError \/ ValueError = KeyError \/ ValueError = TypeError \/
   renders Samples.toy_builtins (fastapi_2.cve_id Samples.dollars)
     [fastapi_2.cvss_score Samples.dollars] = Some ValueError \/
   renders Samples.toy_builtins (fastapi_2.cve_id Samples.dollars)
     [fastapi_2.epss_live Samples.toy_builtins Samples.offline
        (fastapi_2.cve_id Samples.dollars);
      fastapi_2.epss_predict
        (fastapi_2.epss_live Samples.toy_builtins Samples.offline
           (fastapi_2.cve_id Samples.dollars))] = Some ValueError).
Proof.
  split; [reflexivity |].
  apply (post_analyze_failures Samples.toy_builtins Samples.offline ""
           Samples.dollars ValueError).
  reflexivity.
Defined.

(** What the route of [fastapi(2).py] returns, whichever path produced the
    texts: the record's identifier and score, the upper-cased severity, the
    adapter's probability, its projection by the flat engine, and two
    picture addresses that never coincide. *)
Theorem post_analyze_result (bi : builtins) (w : world) (key : string)
  (raw : fastapi_2.CVEInput) (r : fastapi_2.CVEAnalysisResponse) :
  fastapi_2.post_analyze bi w key raw = Return r ->
  fastapi_2.r_cve_id r = fastapi_2.cve_id raw /\
  fastapi_2.r_severity r = upper (fastapi_2.severity raw) /\
  In (fastapi_2.r_severity r) fastapi_2.severities /\
  fastapi_2.r_cvss_score r = fastapi_2.cvss_score raw /\
  (0 <=? fastapi_2.r_cvss_score r)%float = true /\
  (fastapi_2.r_cvss_score r <=? 10)%float = true /\
  fastapi_2.epss_score r = fastapi_2.epss_live bi w (fastapi_2.cve_id raw) /\
  fastapi_2.epss_30d_prediction r = fastapi_2.epss_predict (fastapi_2.epss_score r) /\
  fastapi_2.cvss_heatmap_url r <> fastapi_2.epss_plot_url r.
Proof.
  unfold fastapi_2.post_analyze. intros H. step_bind H; [|discriminate].
  destruct (validate_v2_inv _ _ E) as [-> [Hin [H0 H10]]].
  unfold fastapi_2.analyze in H.
  repeat (step_bind H; [|discriminate]).
  inversion H. subst r. cbn.
  repeat split; auto.
  match goal with
  | E1 : fastapi_2.cvss_image _ _ _ _ _ = Return _,
    E2 : fastapi_2.epss_image _ _ _ _ _ _ = Return _ |- _ =>
      rewrite (cvss_image_inv _ _ _ _ _ _ E1), (epss_image_inv _ _ _ _ _ _ _ E2)
  end.
  cbn. discriminate.
Qed.

Lemma post_analyze_result_witness :
  fastapi_2.post_analyze Samples.toy_builtins Samples.scored "" Samples.libwebp
    = Return (fallback_response Samples.toy_builtins Samples.scored Samples.libwebp
                "/static/images/cvss_0.png" "/static/images/epss_0.png") /\
  fastapi_2.epss_30d_prediction
    (fallback_response Samples.toy_builtins Samples.scored Samples.libwebp
       "/static/images/cvss_0.png" "/static/images/epss_0.png")
  = fastapi_2.epss_predict
      (fastapi_2.epss_score
         (fallback_response Samples.toy_builtins Samples.scored Samples.libwebp
            "/static/images/cvss_0.png" "/static/images/epss_0.png")).
Proof.
  split; [reflexivity |].
  apply (post_analyze_result Samples.toy_builtins Samples.scored "" Samples.libwebp
           (fallback_response Samples.toy_builtins Samples.scored Samples.libwebp
              "/static/images/cvss_0.png" "/static/images/epss_0.png")).
  reflexivity.
Defined.

(** ** The brace search of [finallayer3.py] and [fastapi(1).py] *)

Lemma has_char_app c s1 s2 : has_char c (s1 ++ s2) = has_char c s1 || has_char c s2.
Proof.
  induction s1 as [|c1 s1 IH]; cbn [append has_char]; [reflexivity|].
  rewrite IH, orb_assoc. reflexivity.
Qed.

Lemma upto_last_brace_spec (t : string) :
  match upto_last_brace t with
  | Some r => exists mid post, t = r ++ post /\ r = mid ++ "}" /\ has_char "}" post = false
  | None => has_char "}" t = false
  end.
Proof.
  induction t as [|c t IH]; cbn [upto_last_brace]; [reflexivity|].
  destruct (upto_last_brace t) as [r |].
  - destruct IH as [mid [post [-> [-> Hpost]]]].
    exists (String c mid), post. repeat split. exact Hpost.
  - destruct (Ascii.eqb_spec c "}") as [-> | Hne].
    + exists "", t. repeat split. exact IH.
    + cbn [has_char]. rewrite IH, orb_false_r.
      destruct (Ascii.eqb_spec "}" c); [congruence | reflexivity].
Qed.

(** [re.search(r"\{.*\}", s, re.DOTALL)] on the model: a match starts at
    the first opening brace of the text, which has a closing brace after
    it, and runs to the last closing brace; there is no match exactly when
    no opening brace is followed by a closing one. *)
Theorem search_braces_spec (s : string) :
  match search_braces s with
  | Some r =>
      exists pre mid post,
        s = pre ++ r ++ post /\ r = "{" ++ mid ++ "}" /\
        has_char "{" pre = false /\ has_char "}" post = false
  | None => forall pre rest, s = pre ++ String "{" rest -> has_char "}" rest = false
  end.
Proof.
  induction s as [|c s IH]; cbn [search_braces].
  - intros [|a pre] rest H; discriminate H.
  - destruct (Ascii.eqb_spec c "{") as [-> | Hne].
    + pose proof (upto_last_brace_spec s) as Hu.
      destruct (upto_last_brace s) as [r |].
      * destruct Hu as [mid [post [-> [-> Hpost]]]].
        exists "", mid, post. repeat split. exact Hpost.
      * destruct (search_braces s) as [r |].
        -- exfalso. destruct IH as [pre [mid [post [-> [-> _]]]]].
           rewrite ?has_char_app in Hu. cbn [has_char append] in Hu.
           rewrite ?has_char_app in Hu. cbn [has_char Ascii.eqb Bool.eqb] in Hu.
           rewrite ?orb_true_r in Hu. discriminate Hu.
        -- intros [|a pre] rest H; cbn [append] in H; inversion H; subst.
           ++ exact Hu.
           ++ apply (IH pre rest eq_refl).
    + destruct (search_braces s) as [r |].
      * destruct IH as [pre [mid [post [-> [-> [Hpre Hpost]]]]]].
        exists (String c pre), mid, post. repeat split; [|exact Hpost].
        cbn [has_char]. rewrite Hpre, orb_false_r.
        destruct (Ascii.eqb_spec "{" c); [congruence | reflexivity].
      * intros [|a pre] rest H; cbn [append] in H; inversion H; subst.
        -- congruence.
        -- apply (IH pre rest eq_refl).
Qed.

(** ** The simplification service of [api.py] *)

Lemma lstrip_first s c : first_char (api.lstrip s) = Some c -> api.is_space c = false.
Proof.
  induction s as [|a s IH]; cbn [api.lstrip]; [discriminate|].
  destruct (api.is_space a) eqn:E; [exact IH|].
  cbn [first_char]. intros H. inversion H. subst. exact E.
Qed.

Lemma rstrip_first s c :
  first_char s = Some c -> api.is_space c = false -> first_char (api.rstrip s) = Some c.
Proof.
  destruct s as [|a s]; [discriminate|]. cbn [first_char api.rstrip].
  intros H Hc. inversion H. subst a.
  destruct (api.rstrip s); [rewrite Hc|]; reflexivity.
Qed.

Lemma rstrip_first_inv s c :
  first_char (api.rstrip s) = Some c -> first_char s = Some c.
Proof.
  destruct s as [|a s]; [discriminate|]. cbn [first_char api.rstrip].
  destruct (api.rstrip s); [destruct (api.is_space a); [discriminate|]|]; auto.
Qed.

Lemma rstrip_last s c : last_char (api.rstrip s) = Some c -> api.is_space c = false.
Proof.
  induction s as [|a s IH]; cbn [api.rstrip]; [discriminate|].
  destruct (api.rstrip s) as [|b r] eqn:E.
  - destruct (api.is_space a) eqn:Ea; [discriminate|].
    cbn [last_char]. intros H. inversion H. subst. exact Ea.
  - cbn [last_char]. exact IH.
Qed.

Lemma strip_clean s c :
  first_char (api.strip s) = Some c \/ last_char (api.strip s) = Some c ->
  api.is_space c = false.
Proof.
  unfold api.strip. intros [H | H].
  - apply rstrip_first_inv in H. apply (lstrip_first _ _ H).
  - apply (rstrip_last _ _ H).
Qed.

(** Outcomes of [simplify_vulnerability]: a text is returned only for a
    reply of status 200 whose completion is a text, and it is that text
    stripped, so it neither starts nor ends with white space; any other
    status is passed on as an [HTTPException] of that status; a failed call
    becomes an [HTTPException] of status 500. *)
Theorem simplify_vulnerability_outcome (w : world) (key text : string) :
  match api.simplify_vulnerability w key text with
  | Return s =>
      exists r c, chat_post w key (VStr text) = Return r /\ status_code r = 200%Z /\
        api.reply_content r = Return (VStr c) /\ s = api.strip c /\
        forall ch, first_char s = Some ch \/ last_char s = Some ch -> api.is_space ch = false
  | Raise e =>
      (forall r, chat_post w key (VStr text) = Return r -> status_code r <> 200%Z ->
                 e = HTTPException (status_code r)) /\
      (chat_post w key (VStr text) = Raise ConnectionError -> e = HTTPException 500)
  end.
Proof.
  unfold api.simplify_vulnerability.
  destruct (chat_post w key (VStr text)) as [r | e0]; cbn [bind].
  - destruct (Z.eqb_spec (status_code r) 200) as [E | NE].
    + destruct (api.reply_content r) as [content | e1] eqn:Ec; cbn [bind].
      * destruct content; cbn [api.is_request_exception];
          try (split; [intros r0 H0; inversion H0; subst; contradiction | discriminate]).
        exists r, s. split; [reflexivity|]. split; [exact E|]. split; [exact Ec|].
        split; [reflexivity|]. apply strip_clean.
      * destruct (api.is_request_exception e1);
          (split; [intros r0 H0; inversion H0; subst; contradiction | discriminate]).
    + cbn [api.is_request_exception]. split; [|discriminate].
      intros r0 H0 _. inversion H0. reflexivity.
  - destruct (api.is_request_exception e0) eqn:E; (split; [discriminate|]);
      intros H; inversion H; subst; [reflexivity | discriminate E].
Qed.

(** ** The script of [finallayer3.py] *)

(** What the script prints, when it prints: the texts are the completion's,
    the probability is the service's, and the projection is the canonical
    engine's on that probability.  It prints only if both the summarizer
    and the score lookup returned. *)
Theorem main_output (bi : builtins) (w : world) (self : finallayer3.CVESummarizer)
  (sample_input : finallayer3.SampleInput) (out : value) :
  finallayer3.main bi w self sample_input = Return out ->
  exists ai score,
    finallayer3.summarize bi w self (finallayer3.to_dict sample_input) = Return ai /\
    finallayer3.fetch_epss bi w (finallayer3.cve_id sample_input) = Return score /\
    getitem out "epss_score" = Return (VFloat score) /\
    getitem out "epss_30d_prediction" = Return (VFloat (finallayer3.predict_epss_30d score)) /\
    getitem out "simple_summary" = getitem ai "simple_summary" /\
    getitem out "affected_products" = getitem ai "affected_products" /\
    getitem out "fixes" = getitem ai "fixes".
Proof.
  unfold finallayer3.main. intros H.
  step_bind H; [|discriminate]. rename a into ai.
  step_bind H; [|discriminate]. rename a into score.
  repeat (step_bind H; [|discriminate]).
  inversion H. subst out.
  exists ai, score. repeat split; auto.
Qed.

Lemma main_output_witness :
  finallayer3.main Samples.canned_builtins Samples.answering Samples.summarizer
    Samples.sample_input = Return Samples.printed /\
  exists ai score,
    finallayer3.summarize Samples.canned_builtins Samples.answering Samples.summarizer
      (finallayer3.to_dict Samples.sample_input) = Return ai /\
    finallayer3.fetch_epss Samples.canned_builtins Samples.answering
      (finallayer3.cve_id Samples.sample_input) = Return score /\
    getitem Samples.printed "epss_score" = Return (VFloat score) /\
    getitem Samples.printed "epss_30d_prediction"
      = Return (VFloat (finallayer3.predict_epss_30d score)) /\
    getitem Samples.printed "simple_summary" = getitem ai "simple_summary" /\
    getitem Samples.printed "affected_products" = getitem ai "affected_products" /\
    getitem Samples.printed "fixes" = getitem ai "fixes".
Proof.
  split; [reflexivity |].
  apply (main_output Samples.canned_builtins Samples.answering Samples.summarizer
           Samples.sample_input Samples.printed).
  reflexivity.
Defined.

(** ** The completion path of [fastapi(2).py] *)

Lemma pictures_inv (bi : builtins) (w : world) (cve : fastapi_2.CVEInput)
  (heatmap plot : string) :
  pictures bi w cve = Return (heatmap, plot) ->
  fastapi_2.cvss_image bi w 0 (fastapi_2.cvss_score cve) (fastapi_2.cve_id cve)
    = Return heatmap /\
  fastapi_2.epss_image bi w 1 (fastapi_2.epss_live bi w (fastapi_2.cve_id cve))
    (fastapi_2.epss_predict (fastapi_2.epss_live bi w (fastapi_2.cve_id cve)))
    (fastapi_2.cve_id cve) = Return plot.
Proof.
  unfold pictures. cbv zeta.
  destruct (fastapi_2.cvss_image bi w 0 _ _) as [h | e]; cbn [bind]; [|discriminate].
  destruct (fastapi_2.epss_image bi w 1 _ _ _) as [p | e]; cbn [bind]; [|discriminate].
  intros H. inversion H. split; reflexivity.
Qed.

(** With a key, a completion that is a JSON object holding the five
    fields, and the two pictures drawn, [analyze] returns a result that
    carries the completion's texts and lists as they are.  Nothing checks
    that the lists are populated: an empty list of fixes or products in the
    completion is an empty list in the result. *)
Theorem analyze_uses_completion (bi : builtins) (w : world) (key : string)
  (cve : fastapi_2.CVEInput) (d : list (string * value))
  (s1 s2 : string) (products assets fixes : list string) (heatmap plot : string) :
  String.eqb key "" = false ->
  fastapi_2.completion bi w key cve = Return (VDict d) ->
  assoc "simple_summary" d = Some (VStr s1) ->
  assoc "simple_description" d = Some (VStr s2) ->
  assoc "affected_products" d = Some (VList (map VStr products)) ->
  assoc "affected_assets" d = Some (VList (map VStr assets)) ->
  assoc "fixes" d = Some (VList (map VStr fixes)) ->
  pictures bi w cve = Return (heatmap, plot) ->
  exists r, fastapi_2.analyze bi w key cve = Return r /\
    fastapi_2.simple_summary r = s1 /\ fastapi_2.simple_description r = s2 /\
    fastapi_2.affected_products r = products /\ fastapi_2.affected_assets r = assets /\
    fastapi_2.fixes r = fixes /\
    fastapi_2.cvss_heatmap_url r = heatmap /\ fastapi_2.epss_plot_url r = plot.
Proof.
  intros Hk Hc H1 H2 H3 H4 H5 Hp.
  destruct (pictures_inv _ _ _ _ _ Hp) as [Hh Hq].
  unfold fastapi_2.analyze, fastapi_2.ai_analyze. rewrite Hk, Hc.
  cbn [getitem]. rewrite H1, H2, H3, H4, H5.
  cbn [bind]. rewrite Hh. cbn [bind]. rewrite Hq.
  cbn [bind fastapi_2.as_str fastapi_2.as_str_list]. rewrite !as_str_list_aux_map.
  cbn [bind]. eexists. split; [reflexivity|]. cbn. repeat split.
Qed.

Lemma analyze_uses_completion_witness :
  String.eqb "key" "" = false /\
  fastapi_2.completion Samples.full_builtins Samples.completing "key" Samples.libwebp
    = Return Samples.full_completion /\
  pictures Samples.full_builtins Samples.completing Samples.libwebp
    = Return ("/static/images/cvss_0.png", "/static/images/epss_0.png") /\
  exists r, fastapi_2.analyze Samples.full_builtins Samples.completing "key" Samples.libwebp
            = Return r /\
    fastapi_2.simple_summary r = "An image can crash the program." /\
    fastapi_2.simple_description r = "A crafted picture overflows a buffer." /\
    fastapi_2.affected_products r = ["libwebp"] /\
    fastapi_2.affected_assets r = ["Browsers"] /\
    fastapi_2.fixes r = [] /\
    fastapi_2.cvss_heatmap_url r = "/static/images/cvss_0.png" /\
    fastapi_2.epss_plot_url r = "/static/images/epss_0.png".
Proof.
  split; [reflexivity | split; [reflexivity | split; [reflexivity |]]].
  apply (analyze_uses_completion Samples.full_builtins Samples.completing "key"
           Samples.libwebp
           [("simple_summary", VStr "An image can crash the program.");
            ("simple_description", VStr "A crafted picture overflows a buffer.");
            ("affected_products", VList [VStr "libwebp"]);
            ("affected_assets", VList [VStr "Browsers"]);
            ("fixes", VList [])]
           "An image can crash the program." "A crafted picture overflows a buffer."
           ["libwebp"] ["Browsers"] []
           "/static/images/cvss_0.png" "/static/images/epss_0.png"); reflexivity.
Defined.
